(** * Employee workbook viewer: normalisation, aggregation and re-export

    A shallow embedding of the data pipeline of [src/App.js]
    ([processFile], [downloadExcelWithHighlighting], [isPresentClassName],
    [formatPresentDisplay]) together with the properties its specification
    states about it, and of what surrounds the pipeline: the structure
    report, [nonParticipatingCount], the totals, rates and bar heights of the
    statistics tab, the event handlers and the choice of the screen.

    Conventions of the model.
    - A cell is a JavaScript value as the workbook decoder yields it:
      [undefined] (hole), [null], a boolean, a number, a string or a [Date]
      object (the decoder is run with [cellDates: true]).
    - Numbers are exact rationals extended with [NaN] and the two infinities.
      Arithmetic is exact: binary64 rounding and the sign of zero are not
      modelled; no property below depends on them.
    - Strings are sequences of bytes.  Case mapping and white space are those
      of ASCII, on which they agree with [String.prototype.toLowerCase] and
      [String.prototype.trim].
    - Counters are integers ([Z]); [x++] is [x + 1].
    - The [managerStats] object is the list of its own properties in insertion
      order, next to the names every object inherits from [Object.prototype]. *)

From Stdlib Require Import ZArith QArith Qabs Bool List String Ascii Lia.
From Stdlib Require Import DecimalString Permutation Sorted.
Import ListNotations.

Local Open Scope string_scope.
Local Open Scope Z_scope.

(* ================================================================== *)
(** ** JavaScript values *)

Module JS.

(** Numbers: [NaN], [Infinity] / [-Infinity], or an exact finite value. *)
Inductive num : Type :=
| NaN
| Inf (negative : bool)
| Fin (q : Q).

Inductive value : Type :=
| VUndefined
| VNull
| VBool (b : bool)
| VNum (n : num)
| VStr (s : string)
| VDate (ms : Z).

Definition int (z : Z) : num := Fin (inject_Z z).

Definition q_is_zero (q : Q) : bool := (Qnum q =? 0).
Definition q_is_neg (q : Q) : bool := (Qnum q <? 0).

(** [n === 0] on numbers ([NaN] equals nothing, [-0] is not distinguished). *)
Definition num_is_zero (n : num) : bool :=
  match n with
  | Fin q => q_is_zero q
  | _ => false
  end.

(** Strict equality of two numbers. *)
Definition num_eq (a b : num) : bool :=
  match a, b with
  | Fin p, Fin q => Qeq_bool p q
  | Inf x, Inf y => Bool.eqb x y
  | _, _ => false
  end.

(** [a === b].  Objects are equal by identity only; the program compares a
    cell with primitive literals only, and a [Date] is strictly equal to no
    primitive. *)
Definition strict_eq (a b : value) : bool :=
  match a, b with
  | VUndefined, VUndefined => true
  | VNull, VNull => true
  | VBool x, VBool y => Bool.eqb x y
  | VNum x, VNum y => num_eq x y
  | VStr x, VStr y => String.eqb x y
  | _, _ => false
  end.

(** [ToBoolean]: the test of [if (v)], [!v] and [v ? a : b]. *)
Definition truthy (v : value) : bool :=
  match v with
  | VUndefined | VNull => false
  | VBool b => b
  | VNum NaN => false
  | VNum n => negb (num_is_zero n)
  | VStr s => negb (String.eqb s EmptyString)
  | VDate _ => true
  end.

(** *** Strings *)

Definition code (c : ascii) : nat := nat_of_ascii c.

Definition is_upper (c : ascii) : bool :=
  (65 <=? code c)%nat && (code c <=? 90)%nat.

Definition lower_char (c : ascii) : ascii :=
  if is_upper c then ascii_of_nat (code c + 32) else c.

Fixpoint toLowerCase (s : string) : string :=
  match s with
  | EmptyString => EmptyString
  | String c r => String (lower_char c) (toLowerCase r)
  end.

(** TAB, LF, VT, FF, CR and SPACE. *)
Definition is_white (c : ascii) : bool :=
  (code c =? 32)%nat || ((9 <=? code c)%nat && (code c <=? 13)%nat).

Fixpoint trimStart (s : string) : string :=
  match s with
  | EmptyString => EmptyString
  | String c r => if is_white c then trimStart r else s
  end.

Fixpoint trimEnd (s : string) : string :=
  match s with
  | EmptyString => EmptyString
  | String c r =>
      match trimEnd r with
      | EmptyString => if is_white c then EmptyString else String c EmptyString
      | r' => String c r'
      end
  end.

Definition trim (s : string) : string := trimEnd (trimStart s).

(** [list.includes(x)] for an array of strings and a string [x]. *)
Definition includes (l : list string) (x : string) : bool :=
  existsb (String.eqb x) l.

(** *** Arrays *)

(** [a[i]]: [undefined] out of range (and at a negative index). *)
Definition index (a : list value) (i : Z) : value :=
  if i <? 0 then VUndefined else nth (Z.to_nat i) a VUndefined.

Fixpoint findIndex_from {A : Type} (p : A -> bool) (a : list A) (i : Z) : Z :=
  match a with
  | [] => -1
  | x :: r => if p x then i else findIndex_from p r (i + 1)
  end.

(** [a.findIndex(p)]: the first index whose element satisfies [p], else -1. *)
Definition findIndex {A : Type} (p : A -> bool) (a : list A) : Z :=
  findIndex_from p a 0.

(** [a.slice(1)]. *)
Definition slice1 {A : Type} (a : list A) : list A := tl a.

(** *** Number arithmetic *)

Definition num_add (a b : num) : num :=
  match a, b with
  | NaN, _ | _, NaN => NaN
  | Inf x, Inf y => if Bool.eqb x y then Inf x else NaN
  | Inf x, Fin _ => Inf x
  | Fin _, Inf y => Inf y
  | Fin p, Fin q => Fin (Qred (p + q))
  end.

Definition num_div (a b : num) : num :=
  match a, b with
  | NaN, _ | _, NaN => NaN
  | Inf _, Inf _ => NaN
  | Inf x, Fin q => Inf (xorb x (q_is_neg q))
  | Fin _, Inf _ => Fin 0
  | Fin p, Fin q =>
      if q_is_zero q
      then (if q_is_zero p then NaN else Inf (q_is_neg p))
      else Fin (Qred (p / q))
  end.

(** *** Reading numbers from strings *)

Definition is_digit (c : ascii) : bool :=
  (48 <=? code c)%nat && (code c <=? 57)%nat.

Definition digit_val (c : ascii) : Z := Z.of_nat (code c) - 48.

(** Longest run of decimal digits at the head of [s]: its value on top of
    [acc], how many there were on top of [len], and the rest. *)
Fixpoint digits (s : string) (acc : Z) (len : nat) : Z * nat * string :=
  match s with
  | EmptyString => (acc, len, EmptyString)
  | String c r =>
      if is_digit c then digits r (10 * acc + digit_val c) (S len)
      else (acc, len, s)
  end.

(** [m * 10^e] as a rational. *)
Definition scale10 (m e : Z) : Q :=
  if e <? 0 then Qred (Qmake m (Z.to_pos (10 ^ (- e))))
  else inject_Z (m * 10 ^ e).

(** An [ExponentPart] at the head of [s], when there is a whole one. *)
Definition exponent_part (s : string) : Z * string :=
  match s with
  | String c r =>
      if (code c =? 101)%nat || (code c =? 69)%nat then
        let '(neg, r1) :=
          match r with
          | String "-" r' => (true, r')
          | String "+" r' => (false, r')
          | _ => (false, r)
          end in
        match digits r1 0 0%nat with
        | (_, O, _) => (0, s)
        | (e, _, r2) => ((if neg then - e else e), r2)
        end
      else (0, s)
  | EmptyString => (0, s)
  end.

(** Longest [StrUnsignedDecimalLiteral] without [Infinity] at the head. *)
Definition unsigned_decimal_prefix (s : string) : option (Q * string) :=
  let '(ip, il, r1) := digits s 0 0%nat in
  let '(fp, fl, r2) :=
    match r1 with
    | String "." r => digits r 0 0%nat
    | _ => (0, 0%nat, r1)
    end in
  match (il + fl)%nat with
  | O => None
  | _ =>
      let '(e, r3) := exponent_part r2 in
      Some (scale10 (ip * 10 ^ Z.of_nat fl + fp) (e - Z.of_nat fl), r3)
  end.

Fixpoint strip_prefix (p s : string) : option string :=
  match p, s with
  | EmptyString, _ => Some s
  | String a p', String b s' =>
      if Ascii.eqb a b then strip_prefix p' s' else None
  | _, EmptyString => None
  end.

Definition num_neg (n : num) : num :=
  match n with
  | NaN => NaN
  | Inf x => Inf (negb x)
  | Fin q => Fin (Qred (- q))
  end.

(** Longest [StrDecimalLiteral] at the head of [s], with what follows it. *)
Definition decimal_prefix (s : string) : option (num * string) :=
  let '(neg, r) :=
    match s with
    | String "-" r' => (true, r')
    | String "+" r' => (false, r')
    | _ => (false, s)
    end in
  let unsigned :=
    match strip_prefix "Infinity" r with
    | Some r' => Some (Inf false, r')
    | None =>
        match unsigned_decimal_prefix r with
        | Some (q, r') => Some (Fin q, r')
        | None => None
        end
    end in
  match unsigned with
  | Some (n, r') => Some ((if neg then num_neg n else n), r')
  | None => None
  end.

(** [parseFloat(s)]: leading white space is skipped, the longest decimal
    literal at the head is read, [NaN] when there is none. *)
Definition parseFloat (s : string) : num :=
  match decimal_prefix (trimStart s) with
  | Some (n, _) => n
  | None => NaN
  end.

Definition radix_digit (radix : Z) (c : ascii) : option Z :=
  let n := code c in
  let d :=
    if is_digit c then Some (digit_val c)
    else if (97 <=? n)%nat && (n <=? 102)%nat then Some (Z.of_nat n - 87)
    else if (65 <=? n)%nat && (n <=? 70)%nat then Some (Z.of_nat n - 55)
    else None in
  match d with
  | Some v => if v <? radix then Some v else None
  | None => None
  end.

Fixpoint radix_digits (radix : Z) (s : string) (acc : Z) : option Z :=
  match s with
  | EmptyString => Some acc
  | String c r =>
      match radix_digit radix c with
      | Some v => radix_digits radix r (radix * acc + v)
      | None => None
      end
  end.

(** [0x], [0o] and [0b] literals: a prefix and at least one digit. *)
Definition radix_literal (s : string) : option Z :=
  match s with
  | String "0" (String c (String d r)) =>
      let body := String d r in
      if (code c =? 120)%nat || (code c =? 88)%nat then radix_digits 16 body 0
      else if (code c =? 111)%nat || (code c =? 79)%nat then radix_digits 8 body 0
      else if (code c =? 98)%nat || (code c =? 66)%nat then radix_digits 2 body 0
      else None
  | _ => None
  end.

(** [ToNumber] of a string ([StringToNumber]): the whole trimmed string must
    be a numeric literal; the empty string is 0. *)
Definition StringToNumber (s : string) : num :=
  let t := trim s in
  if String.eqb t EmptyString then int 0
  else
    match decimal_prefix t with
    | Some (n, EmptyString) => n
    | _ =>
        match radix_literal t with
        | Some z => int z
        | None => NaN
        end
    end.

(** [ToNumber] of a primitive or, for a [Date], of its time value. *)
Definition ToNumber (v : value) : num :=
  match v with
  | VUndefined => NaN
  | VNull => int 0
  | VBool b => int (if b then 1 else 0)
  | VNum n => n
  | VStr s => StringToNumber s
  | VDate ms => int ms
  end.

(** *** Further operations of the language *)

(** [typeof v]. *)
Definition typeof (v : value) : string :=
  match v with
  | VUndefined => "undefined"
  | VNull => "object"
  | VBool _ => "boolean"
  | VNum _ => "number"
  | VStr _ => "string"
  | VDate _ => "object"
  end.

(** [a.slice(start, stop)] for non-negative bounds. *)
Definition slice {A : Type} (a : list A) (start stop : Z) : list A :=
  firstn (Z.to_nat (stop - start)) (skipn (Z.to_nat start) a).

(** [l.join(sep)] for an array of strings. *)
Fixpoint join (sep : string) (l : list string) : string :=
  match l with
  | [] => EmptyString
  | [x] => x
  | x :: r => x ++ sep ++ join sep r
  end.

(** [types.add(x)] on a [Set] of strings kept in insertion order. *)
Definition Set_add (x : string) (s : list string) : list string :=
  if includes s x then s else (s ++ [x])%list.

Definition num_mul (a b : num) : num :=
  match a, b with
  | NaN, _ | _, NaN => NaN
  | Inf x, Inf y => Inf (xorb x y)
  | Inf x, Fin q =>
      if q_is_zero q then NaN else Inf (xorb x (q_is_neg q))
  | Fin p, Inf y =>
      if q_is_zero p then NaN else Inf (xorb (q_is_neg p) y)
  | Fin p, Fin q => Fin (Qred (p * q))
  end.

(** [a > b] on numbers. *)
Definition num_gt (a b : num) : bool :=
  match a, b with
  | NaN, _ | _, NaN => false
  | Inf x, Inf y => negb x && y
  | Inf x, Fin _ => negb x
  | Fin _, Inf y => y
  | Fin p, Fin q => negb (Qle_bool p q)
  end.

End JS.

(* ================================================================== *)
(** ** The application *)

Module App.
Import JS.

(** *** Participation predicates *)

Definition present_words : list string := ["ja"; "yes"; "y"; "true"; "1"].
Definition absent_words : list string := ["nee"; "no"; "n"; "false"; "0"].

(** The [isPresent] computation of the aggregator ([processFile], the block
    commented "Check if present (ja/yes) or not").  [isPresent] starts
    [false]; a value that is neither [undefined] nor [null] sets it by its
    [typeof]: a boolean to itself, a number to [presentValue !== 0], a string
    to the membership of its normalised form; no branch applies to an
    object. *)
Definition isPresent (presentValue : value) : bool :=
  if negb (strict_eq presentValue VUndefined)
     && negb (strict_eq presentValue VNull)
  then
    match presentValue with
    | VBool b => b
    | VNum _ => negb (strict_eq presentValue (VNum (int 0)))
    | VStr s =>
        let normalizedValue := trim (toLowerCase s) in
        includes present_words normalizedValue
    | _ => false
    end
  else false.

(** [isPresentClassName]: the class of a table row, ['bg-red-200'] for a
    record shown as not participating, [''] otherwise. *)
Definition isPresentClassName (present : value) : string :=
  if strict_eq present VUndefined
     || strict_eq present VNull
     || strict_eq present (VBool false)
     || strict_eq present (VNum (int 0))
     || strict_eq present (VStr EmptyString)
     || match present with
        | VStr s =>
            includes absent_words (toLowerCase s)
            || negb (includes present_words (toLowerCase s))
        | _ => false
        end
  then "bg-red-200"
  else EmptyString.

(** [formatPresentDisplay]: the label shown in the table and written to the
    exported sheet. *)
Definition formatPresentDisplay (present : value) : string :=
  let otherwise :=
    if strict_eq present (VBool true) || strict_eq present (VNum (int 1))
    then "Yes" else "No" in
  match present with
  | VStr s =>
      let normalized := trim (toLowerCase s) in
      if includes present_words normalized then "Yes"
      else if includes absent_words normalized then "No"
      else otherwise
  | _ => otherwise
  end.

(** The classification as the specification words it ([classifyPresence]):
    a boolean is itself; a number is present iff it is not zero; a text is
    present iff, lower-cased and trimmed, it is one of ja, yes, y, true, 1;
    undefined, null and anything else are absent. *)
Definition classifyPresence (v : value) : bool :=
  match v with
  | VBool true => true
  | VBool false => false
  | VNum n => if num_is_zero n then false else true
  | VStr s =>
      if in_dec string_dec (trim (toLowerCase s)) ["ja"; "yes"; "y"; "true"; "1"]
      then true else false
  | _ => false
  end.

(** *** Records *)

(** One element of [formattedData].  [startDate] and [endDate] are [null]
    ([None]) or the object [new Date(c)] for the cell [c] ([Some c]). *)
Record employee : Type := {
  id : value;
  name : value;
  function : value;
  employmentType : value;
  employeeType : value;
  startDate : option value;
  endDate : option value;
  employer : value;
  manager : value;
  partTimePercentage : value;
  present : value
}.

(** The three [findIndex] calls of [processFile]. *)
Definition leidinggevendeIndex (headers : list value) : Z :=
  findIndex (fun h => strict_eq h (VStr "Leidinggevende")) headers.

Definition parttimeIndex (headers : list value) : Z :=
  findIndex (fun h => strict_eq h (VStr "Parttime (%)")) headers.

Definition is_participation_header (h : value) : bool :=
  strict_eq h (VStr "Aanwezig")
  || strict_eq h (VStr "Present")
  || strict_eq h (VStr "Participation").

Definition aanwezigIndex (headers : list value) : Z :=
  findIndex is_participation_header headers.

(** The callback of [rows.map] in [processFile]. *)
Definition formatRow (leidinggevendeIndex parttimeIndex aanwezigIndex : Z)
    (row : list value) : employee :=
  let presentValue :=
    if negb (aanwezigIndex =? -1) then index row aanwezigIndex
    else VUndefined in
  let presentValue :=
    if strict_eq presentValue VUndefined then VStr "nee" else presentValue in
  {| id := index row 0;
     name := index row 1;
     function := index row 2;
     employmentType := index row 3;
     employeeType := index row 4;
     startDate := if truthy (index row 5) then Some (index row 5) else None;
     endDate := if truthy (index row 6) then Some (index row 6) else None;
     employer := index row 9;
     manager := index row leidinggevendeIndex;
     partTimePercentage := index row parttimeIndex;
     present := presentValue |}.

(** One value of [managerStats].  The two part-time fields are JavaScript
    values: the sum is a number or, after a [Date] was added to it, a string;
    the average starts as the number 0 and ends as the string of [toFixed]. *)
Record managerStat : Type := {
  totalEmployees : Z;
  presentEmployees : Z;
  absentEmployees : Z;
  totalPartTimePercentage : value;
  avgPartTimePercentage : value
}.

(** Own properties of the [managerStats] object, in insertion order. *)
Definition statsObject : Type := list (string * managerStat).

Fixpoint lookup (k : string) (o : statsObject) : option managerStat :=
  match o with
  | [] => None
  | (k', st) :: r => if String.eqb k k' then Some st else lookup k r
  end.

(** Replace the value of the own property [k] by its image under [f]. *)
Fixpoint update (k : string) (f : managerStat -> managerStat)
    (o : statsObject) : statsObject :=
  match o with
  | [] => []
  | (k', st) :: r =>
      if String.eqb k k' then (k', f st) :: r else (k', st) :: update k f r
  end.

(** The property names every object literal inherits from
    [Object.prototype]; each is bound to a function or an object, hence
    truthy. *)
Definition Object_prototype_names : list string :=
  ["constructor"; "__proto__"; "hasOwnProperty"; "isPrototypeOf";
   "propertyIsEnumerable"; "toLocaleString"; "toString"; "valueOf";
   "__defineGetter__"; "__defineSetter__"; "__lookupGetter__";
   "__lookupSetter__"].

(** The object literal a group starts from. *)
Definition newGroup : managerStat :=
  {| totalEmployees := 0;
     presentEmployees := 0;
     absentEmployees := 0;
     totalPartTimePercentage := VNum (int 0);
     avgPartTimePercentage := VNum (int 0) |}.

Definition decimal (z : Z) : string :=
  NilZero.string_of_uint (N.to_uint (Z.to_N z)).

Definition q_is_integer (q : Q) : bool := (Zpos (Qden (Qred q)) =? 1).

(** Result of the two-sheet workbook and of its sheets: rows of cells. *)
Definition sheet : Type := list (list value).
Definition workbook : Type := list (string * sheet).

(** What [processFile] leaves behind for one decoded sheet. *)
Inductive outcome : Type :=
| MissingColumns
| Processed (formattedData : list employee) (managerStats : statsObject).

(** The React state the pipeline writes. *)
Record session : Type := {
  data : list employee;
  stats : statsObject;
  error : option string;
  loading : bool;
  activeTab : string
}.

Definition initial_session : session :=
  {| data := []; stats := []; error := None; loading := false;
     activeTab := "upload" |}.

Definition dquote : string := String (ascii_of_nat 34) EmptyString.

Definition missing_columns_message : string :=
  "Required columns missing. Please check that your file has "
  ++ dquote ++ "Leidinggevende" ++ dquote ++ " and "
  ++ dquote ++ "Parttime (%)" ++ dquote ++ " columns.".

(** *** Re-export *)

(** [CanonicalNumericIndexString] restricted to array indices: the integer a
    property name spells, when it is one of 0 .. 2^32 - 2 in canonical form. *)
Definition array_index (k : string) : option Z :=
  match digits k 0 0%nat with
  | (n, S _, EmptyString) =>
      if (n <=? 4294967294) && String.eqb (decimal n) k then Some n else None
  | _ => None
  end.

Fixpoint insert_by_index {A : Type} (x : Z * A) (l : list (Z * A))
    : list (Z * A) :=
  match l with
  | [] => [x]
  | y :: r => if fst x <=? fst y then x :: l else y :: insert_by_index x r
  end.

Definition indexed_entries (o : statsObject)
    : list (Z * (string * managerStat)) :=
  flat_map (fun kv =>
              match array_index (fst kv) with
              | Some n => [(n, kv)]
              | None => []
              end) o.

Definition named_entries (o : statsObject) : statsObject :=
  filter (fun kv =>
            match array_index (fst kv) with
            | Some _ => false
            | None => true
            end) o.

(** [Object.entries(o)] (and the order of [Object.keys(o)]): array indices in
    ascending order, then the other names in insertion order. *)
Definition Object_entries (o : statsObject) : statsObject :=
  (map snd (fold_right insert_by_index [] (indexed_entries o))
   ++ named_entries o)%list.

Definition employees_header : list value :=
  [VStr "Name"; VStr "Function"; VStr "PO"; VStr "Part-time %"; VStr "Present"].

Definition statistics_header : list value :=
  [VStr "Product Owner"; VStr "Total Employees"; VStr "Present";
   VStr "Absent"; VStr "Avg. Part-time %"].

Definition employee_row (e : employee) : list value :=
  [name e; function e; manager e; partTimePercentage e;
   VStr (formatPresentDisplay (present e))].

Definition stat_row (kv : string * managerStat) : list value :=
  let '(manager, stat) := kv in
  [VStr manager;
   VNum (int (totalEmployees stat));
   VNum (int (presentEmployees stat));
   VNum (int (absentEmployees stat));
   avgPartTimePercentage stat].

(** [downloadExcelWithHighlighting]: nothing is written when [data] is empty;
    otherwise the workbook of the two sheets, each an array of arrays. *)
Definition downloadExcelWithHighlighting (s : session) : option workbook :=
  match data s with
  | [] => None
  | _ =>
      let wsData := employees_header :: map employee_row (data s) in
      let statsData :=
        statistics_header :: map stat_row (Object_entries (stats s)) in
      Some [("Employees", wsData); ("Statistics", statsData)]
  end.

(** Reading a written workbook back (the decoder library, taken as lossless):
    the first sheet gives the header list, an empty header cell being [null],
    and the rows, an empty cell being a hole.  On the sheets written above
    every row has the five cells of its header row. *)
Definition header_cell (v : value) : value :=
  match v with
  | VUndefined | VNull => VNull
  | _ => v
  end.

Definition row_cell (v : value) : value :=
  match v with
  | VNull => VUndefined
  | _ => v
  end.

Definition read_back (wb : workbook)
    : option (list value * list (list value)) :=
  match wb with
  | [] => None
  | (_, sh) :: _ => Some (map header_cell (hd [] sh), map (map row_cell) sh)
  end.

(** [nonParticipatingCount]: how many records of [data] have a highlighted
    row. *)
Definition nonParticipatingCount (data : list employee) : Z :=
  Z.of_nat
    (List.length
       (filter (fun employee =>
                  negb (String.eqb (isPresentClassName (present employee))
                                   EmptyString))
               data)).



(** *** The structure report *)

(** The [types] set of the column [idx]: the [typeof] of its defined cells
    in [jsonData.slice(1, 10)], in the order of their first appearance. *)
Definition columnTypeSet (idx : Z) (jsonData : list (list value))
    : list string :=
  fold_left (fun types row =>
               if negb (strict_eq (index row idx) VUndefined)
               then Set_add (typeof (index row idx)) types
               else types)
            (slice jsonData 1 10) [].

(** [Array.from(types).join('/')]. *)
Definition columnSignature (idx : Z) (jsonData : list (list value))
    : string :=
  join "/" (columnTypeSet idx jsonData).

(** [jsonData.slice(1, Math.min(5, jsonData.length))]. *)
Definition sampleRows_of (jsonData : list (list value)) : list (list value) :=
  slice jsonData 1 (Z.min 5 (Z.of_nat (List.length jsonData))).

(** Own properties of the [columnTypes] object, in insertion order. *)
Definition typesObject : Type := list (string * string).

Fixpoint lookupType (k : string) (o : typesObject) : option string :=
  match o with
  | [] => None
  | (k', t) :: r => if String.eqb k k' then Some t else lookupType k r
  end.

Fixpoint assign (k t : string) (o : typesObject) : typesObject :=
  match o with
  | [] => [(k, t)]
  | (k', t') :: r =>
      if String.eqb k k' then (k', t) :: r else (k', t') :: assign k t r
  end.

(** [o[k] = t] for a string [t] on an object literal: an own property is
    written or created, except under [__proto__], whose setter ignores a
    value that is no object. *)
Definition setProperty (k t : string) (o : typesObject) : typesObject :=
  if String.eqb k "__proto__" then o else assign k t o.

(** The selected file: its [name] and its [size] in bytes. *)
Record fileInfo : Type := {
  file_name : string;
  file_size : Z
}.

(** What the decoder yields for a workbook it can read: the sheet names (at
    least one, the first sheet being read), the end of the used range of the
    first sheet, its header list and its rows. *)
Record decoded : Type := {
  SheetNames : list string;
  range_e_r : Z;
  range_e_c : Z;
  sheet_headers : list value;
  sheet_jsonData : list (list value)
}.

(** The argument of [setFileStructure]. *)
Record structure : Type := {
  fileName : string;
  fileSize : string;
  sheetNames : list string;
  activeSheet : string;
  rowCount : Z;
  columnCount : Z;
  headers : list value;
  columnTypes : typesObject;
  sampleRows : list (list value)
}.

(** How a read ends: [reader.onerror], an exception of the decoder inside
    [reader.onload], or a decoded workbook. *)
Inductive readResult : Type :=
| ReadError
| DecodeError
| Decoded (d : decoded).

Definition read_error_message : string := "Error reading file.".

Definition decode_error_message : string :=
  "Failed to process the Excel file. Please check the format.".

(** *** The component state and what is on screen *)

(** The state of [EmployeeDataVisualization]: the part the pipeline writes
    and the rest. *)
Record app : Type := {
  core : session;
  file : option fileInfo;
  fileStructure : option structure;
  dragActive : bool;
  showSampleData : bool
}.

Definition initial_app : app :=
  {| core := initial_session;
     file := None;
     fileStructure := None;
     dragActive := false;
     showSampleData := false |}.

Inductive tabContent : Type :=
| FileStructureTab
| EmployeesTab
| StatisticsTab
| DeploymentTab.

(** The chain of conditionals on [activeTab] under the tab bar. *)
Definition content_of (activeTab : string) : tabContent :=
  if String.eqb activeTab "structure" then FileStructureTab
  else if String.eqb activeTab "employees" then EmployeesTab
  else if String.eqb activeTab "statistics" then StatisticsTab
  else DeploymentTab.

(** What the component returns. *)
Inductive view : Type :=
| Spinner
| ErrorPanel (message : string)
| Tabs (content : tabContent)
| StructureOnly
| UploadTab.

(** The chain of conditionals of the returned element: [loading], [error],
    [fileStructure && data.length > 0], [fileStructure], else the upload
    tab. *)
Definition view_of (a : app) : view :=
  let otherwise :=
    match fileStructure a with
    | Some _ =>
        if (0 <? Z.of_nat (List.length (data (core a)))) then
          Tabs (content_of (activeTab (core a)))
        else StructureOnly
    | None => UploadTab
    end in
  if loading (core a) then Spinner
  else
    match error (core a) with
    | Some message =>
        if negb (String.eqb message EmptyString) then ErrorPanel message
        else otherwise
    | None => otherwise
    end.

(** The buttons of the tab bar. *)
Inductive tabButton : Type :=
| StructureButton
| EmployeesButton
| StatisticsButton
| DeployButton.

Definition tab_name (b : tabButton) : string :=
  match b with
  | StructureButton => "structure"
  | EmployeesButton => "employees"
  | StatisticsButton => "statistics"
  | DeployButton => "deploy"
  end.

(** What can happen to the component: the drag events of the drop zone, a
    drop and a change of the file input (with the first file, if any), the
    end of the pending read, and the buttons. *)
Inductive event : Type :=
| Drag (type : string)
| Drop (first : option fileInfo)
| Change (first : option fileInfo)
| ReadEnds (r : readResult)
| TryAgain
| TabClick (b : tabButton)
| ContinueToAnalysis
| ToggleSampleData
| DownloadExcel.

(** Which handlers the element on screen carries. *)
Definition offered (v : view) (ev : event) : bool :=
  match v, ev with
  | UploadTab, (Drag _ | Drop _ | Change _) => true
  | Spinner, ReadEnds _ => true
  | ErrorPanel _, TryAgain => true
  | Tabs _, TabClick _ => true
  | Tabs FileStructureTab, (ContinueToAnalysis | ToggleSampleData) => true
  | Tabs (EmployeesTab | StatisticsTab), DownloadExcel => true
  | StructureOnly, (ContinueToAnalysis | ToggleSampleData) => true
  | _, _ => false
  end.

Definition with_core (a : app) (s : session) : app :=
  {| core := s;
     file := file a;
     fileStructure := fileStructure a;
     dragActive := dragActive a;
     showSampleData := showSampleData a |}.

Definition with_activeTab (a : app) (tab : string) : app :=
  with_core a
    {| data := data (core a);
       stats := stats (core a);
       error := error (core a);
       loading := loading (core a);
       activeTab := tab |}.

Definition with_dragActive (a : app) (b : bool) : app :=
  {| core := core a;
     file := file a;
     fileStructure := fileStructure a;
     dragActive := b;
     showSampleData := showSampleData a |}.

(** [handleDrag]. *)
Definition handleDrag (type : string) (a : app) : app :=
  if String.eqb type "dragenter" || String.eqb type "dragover"
  then with_dragActive a true
  else if String.eqb type "dragleave" then with_dragActive a false
  else a.

(** The synchronous part of [processFile]: [setLoading(true)],
    [setError(null)], [setFile(file)]; the read is then pending. *)
Definition startProcessFile (f : fileInfo) (a : app) : app :=
  {| core := {| data := data (core a);
                stats := stats (core a);
                error := None;
                loading := true;
                activeTab := activeTab (core a) |};
     file := Some f;
     fileStructure := fileStructure a;
     dragActive := dragActive a;
     showSampleData := showSampleData a |}.

(** The end of a read that failed: the message, and [setLoading(false)]. *)
Definition failWith (message : string) (a : app) : app :=
  with_core a
    {| data := data (core a);
       stats := stats (core a);
       error := Some message;
       loading := false;
       activeTab := activeTab (core a) |}.

(** The "Try Again" button of the error panel. *)
Definition tryAgain (a : app) : app :=
  {| core := {| data := [];
                stats := [];
                error := None;
                loading := loading (core a);
                activeTab := "upload" |};
     file := None;
     fileStructure := None;
     dragActive := dragActive a;
     showSampleData := showSampleData a |}.


(** A stand-in for the two conversions the engine leaves to binary64 digit
    generation and to the time zone; it serves to run the model on examples,
    and no statement depends on what it prints. *)
Definition sample_digits (q : Q) : string :=
  decimal (Z.abs (Qnum q)) ++ "/" ++ decimal (Zpos (Qden q)).

Definition sample_date (ms : Z) : string :=
  "Date " ++ decimal (Z.abs ms).

(** *** Sample sheets *)

Definition sample_headers : list value :=
  [VStr "ID"; VStr "Name"; VStr "Function"; VStr "Type"; VStr "EmpType";
   VStr "Start"; VStr "End"; VNull; VNull; VStr "Employer";
   VStr "Leidinggevende"; VStr "Parttime (%)"; VStr "Aanwezig"].

Definition sample_row (who : string) (parttime participation : value)
    : list value :=
  [VNum (int 1); VStr who; VStr "Engineer"; VStr "Vast"; VStr "Intern";
   VDate 0; VUndefined; VUndefined; VUndefined; VStr "ACME";
   VStr "Alice"; parttime; participation].

(** Two employees of Alice, one present at 50 %, one absent at 100 %. *)
Definition sample_jsonData : list (list value) :=
  [sample_headers;
   sample_row "Bram" (VNum (int 50)) (VStr "ja");
   sample_row "Carla" (VNum (int 100)) (VStr "nee")].

(** The header row without its "Leidinggevende" column. *)
Definition headers_without_manager : list value :=
  [VStr "ID"; VStr "Name"; VStr "Function"; VStr "Type"; VStr "EmpType";
   VStr "Start"; VStr "End"; VNull; VNull; VStr "Employer";
   VStr "Parttime (%)"; VStr "Aanwezig"].

(** The same sheet with a part-time cell that is no number. *)
Definition unparsable_jsonData : list (list value) :=
  [sample_headers;
   sample_row "Bram" (VNum (int 50)) (VStr "ja");
   sample_row "Carla" (VStr "abc") (VStr "nee")].

(** The records of the two sample sheets, and a record without manager. *)
Definition sample_records : list employee :=
  map (formatRow 10 11 12) (slice1 sample_jsonData).

Definition unparsable_records : list employee :=
  map (formatRow 10 11 12) (slice1 unparsable_jsonData).

Definition orphan_records : list employee :=
  [formatRow 10 11 12 [VNum (int 7); VStr "Dirk"]].

(** A selected file and what the decoder reads in it. *)
Definition sample_file : fileInfo :=
  {| file_name := "employees.xlsx"; file_size := 20480 |}.

Definition sample_decoded : decoded :=
  {| SheetNames := ["Blad1"];
     range_e_r := 2;
     range_e_c := 12;
     sheet_headers := sample_headers;
     sheet_jsonData := sample_jsonData |}.


(** *** The pipeline, over the conversions of the engine *)

(** Membership in a list written out. *)
Ltac find_in := simpl; repeat (first [left; reflexivity | right]).

(** Absence from a list written out. *)
Ltac not_among :=
  let H := fresh in
  intros H; simpl in H;
  repeat (destruct H as [H | H]; [discriminate H |]); exact H.

Section Engine.

(** [Number::toString] on the finite values that are not integers of
    magnitude at most 2^53: the shortest digits that read back as the same
    binary64 value. *)
Variable shortest_digits : Q -> string.

(** [Date.prototype.toString], of the time value. *)
Variable Date_toString : Z -> string.

Definition Number_toString (n : num) : string :=
  match n with
  | NaN => "NaN"
  | Inf false => "Infinity"
  | Inf true => "-Infinity"
  | Fin q =>
      if q_is_integer q && (Z.abs (Qnum (Qred q)) <=? 2 ^ 53)
      then (if q_is_neg q then "-" else EmptyString)
           ++ decimal (Z.abs (Qnum (Qred q)))
      else shortest_digits q
  end.

(** [ToString] of a primitive or, for a [Date], of its string form. *)
Definition ToString (v : value) : string :=
  match v with
  | VUndefined => "undefined"
  | VNull => "null"
  | VBool true => "true"
  | VBool false => "false"
  | VNum n => Number_toString n
  | VStr s => s
  | VDate ms => Date_toString ms
  end.

(** [ToPropertyKey]: the name under which [o[v]] looks a value up. *)
Definition ToPropertyKey (v : value) : string := ToString v.

(** [a + b]: a string or a [Date] on either side makes it a concatenation,
    otherwise both sides are added as numbers. *)
Definition add (a b : value) : value :=
  match a, b with
  | (VStr _ | VDate _), _ | _, (VStr _ | VDate _) =>
      VStr (ToString a ++ ToString b)
  | _, _ => VNum (num_add (ToNumber a) (ToNumber b))
  end.

Definition two_digits (z : Z) : string :=
  if z <? 10 then "0" ++ decimal z else decimal z.

(** [x.toFixed(2)]. *)
Definition toFixed2 (x : num) : string :=
  match x with
  | Fin q =>
      let s := if q_is_neg q then "-" else EmptyString in
      let a := Qabs q in
      if Qle_bool (inject_Z (10 ^ 21)) a then s ++ Number_toString (Fin a)
      else
        let n := (200 * Qnum a + Zpos (Qden a)) / (2 * Zpos (Qden a)) in
        s ++ decimal (n / 100) ++ "." ++ two_digits (n mod 100)
  | _ => Number_toString x
  end.

(** What one employee does to the group it belongs to: the statements of the
    [forEach] callback after the group was found or created. *)
Definition count (employee : employee) (g : managerStat) : managerStat :=
  let total := totalEmployees g + 1 in
  let isPresent := isPresent (present employee) in
  let present := if isPresent then presentEmployees g + 1
                 else presentEmployees g in
  let absent := if isPresent then absentEmployees g
                else absentEmployees g + 1 in
  let sum :=
    if truthy (partTimePercentage employee) then
      add (totalPartTimePercentage g)
          (match partTimePercentage employee with
           | VStr s => VNum (parseFloat s)
           | v => v
           end)
    else totalPartTimePercentage g in
  {| totalEmployees := total;
     presentEmployees := present;
     absentEmployees := absent;
     totalPartTimePercentage := sum;
     avgPartTimePercentage := avgPartTimePercentage g |}.

(** The callback of [formattedData.forEach].  [managerStats[k]] is an own
    group, or a value inherited from [Object.prototype] (truthy: no group is
    created, and the updates land on that inherited object, outside the
    stats, where the model does not follow them), or [undefined] (a group is
    created). *)
Definition foldEmployee (managerStats : statsObject) (employee : employee)
    : statsObject :=
  if truthy (manager employee) then
    let k := ToPropertyKey (manager employee) in
    match lookup k managerStats with
    | Some _ => update k (count employee) managerStats
    | None =>
        if includes Object_prototype_names k then managerStats
        else (managerStats ++ [(k, count employee newGroup)])%list
    end
  else managerStats.

(** [a / b] for a sum [a] and a counter [b]. *)
Definition divide (a : value) (b : Z) : num :=
  num_div (ToNumber a) (int b).

(** The second pass, "Calculate averages". *)
Definition withAverage (g : managerStat) : managerStat :=
  {| totalEmployees := totalEmployees g;
     presentEmployees := presentEmployees g;
     absentEmployees := absentEmployees g;
     totalPartTimePercentage := totalPartTimePercentage g;
     avgPartTimePercentage :=
       VStr (toFixed2 (divide (totalPartTimePercentage g)
                              (totalEmployees g))) |}.

Definition computeAverages (managerStats : statsObject) : statsObject :=
  map (fun kv => (fst kv, withAverage (snd kv))) managerStats.

(** The statistics after the fold over [formattedData], before averages. *)
Definition aggregate (formattedData : list employee) : statsObject :=
  fold_left foldEmployee formattedData [].

(** The body of [reader.onload] from "Find column indices" on, for the header
    list and the rows ([jsonData]) of the first sheet. *)
Definition processSheet (headers : list value) (jsonData : list (list value))
    : outcome :=
  let rows := slice1 jsonData in
  let leidinggevendeIndex := leidinggevendeIndex headers in
  let parttimeIndex := parttimeIndex headers in
  let aanwezigIndex := aanwezigIndex headers in
  if (leidinggevendeIndex =? -1) || (parttimeIndex =? -1) then MissingColumns
  else
    let formattedData :=
      map (formatRow leidinggevendeIndex parttimeIndex aanwezigIndex) rows in
    Processed formattedData (computeAverages (aggregate formattedData)).

(** [processFile] on the React state: [setLoading(true)], [setError(null)],
    then either the error message or the new data and statistics. *)
Definition processFile (headers : list value) (jsonData : list (list value))
    (s : session) : session :=
  match processSheet headers jsonData with
  | MissingColumns =>
      {| data := data s;
         stats := stats s;
         error := Some missing_columns_message;
         loading := false;
         activeTab := activeTab s |}
  | Processed formattedData managerStats =>
      {| data := formattedData;
         stats := managerStats;
         error := None;
         loading := false;
         activeTab := "structure" |}
  end.

(** Uploading again the workbook that was downloaded; [None] for a workbook
    without a sheet, which the pipeline cannot read. *)
Definition reimport (wb : workbook) : option outcome :=
  match read_back wb with
  | Some (headers, jsonData) => Some (processSheet headers jsonData)
  | None => None
  end.

(** *** The groups of a list of records *)

(** The property name under which a record is grouped. *)
Definition groupKey (e : employee) : string := ToPropertyKey (manager e).

(** The records the fold counts: those with a truthy manager whose property
    name is not one inherited from [Object.prototype]. *)
Definition counted (e : employee) : bool :=
  truthy (manager e)
  && negb (includes Object_prototype_names (groupKey e)).

(** The counted records grouped under [k], in the order of the list. *)
Definition group_of (k : string) (formattedData : list employee)
    : list employee :=
  filter (fun e => counted e && String.eqb (groupKey e) k) formattedData.

(** Counting the records of a list into one group, one after the other. *)
Definition countAll (l : list employee) (g : managerStat) : managerStat :=
  fold_left (fun g e => count e g) l g.

(** Property names in the order of their first occurrence. *)
Fixpoint first_occurrences (l : list string) : list string :=
  match l with
  | [] => []
  | k :: r => k :: remove string_dec k (first_occurrences r)
  end.

(** How many elements of a list pass a test, as a number. *)
Definition how_many {A : Type} (p : A -> bool) (l : list A) : Z :=
  Z.of_nat (List.length (filter p l)).

(** No own property of the statistics bears an inherited name. *)
Definition proto_free (o : statsObject) : Prop :=
  Forall (fun kv => includes Object_prototype_names (fst kv) = false) o.

(** *** The totals of the statistics tab *)

(** [Object.values(stats)]. *)
Definition Object_values (o : statsObject) : list managerStat :=
  map snd (Object_entries o).

(** [Object.values(stats).reduce((sum, stat) => sum + stat.f, 0)] for a
    counter [f]. *)
Definition reduce_sum (f : managerStat -> Z) (o : statsObject) : Z :=
  fold_left (fun sum stat => sum + f stat) (Object_values o) 0.


(** The sum of a counter over the own properties, in their stored order. *)
Definition sumZ (f : managerStat -> Z) (o : statsObject) : Z :=
  fold_right (fun kv acc => f (snd kv) + acc) 0 o.


(** *** The structure report, the rates and the events, over the engine *)

(** The [headers.forEach] that fills [columnTypes]: each truthy header gets
    the signature of its column. *)
Fixpoint columnTypes_from (headers : list value) (idx : Z)
    (jsonData : list (list value)) (columnTypes : typesObject)
    : typesObject :=
  match headers with
  | [] => columnTypes
  | header :: r =>
      columnTypes_from r (idx + 1) jsonData
        (if truthy header
         then setProperty (ToPropertyKey header)
                          (columnSignature idx jsonData) columnTypes
         else columnTypes)
  end.

Definition columnTypes_of (headers : list value)
    (jsonData : list (list value)) : typesObject :=
  columnTypes_from headers 0 jsonData [].

(** The cell [columnTypes[header] || 'unknown'] of the structure table:
    [None] when the lookup ends on an object inherited from
    [Object.prototype], which is no text. *)
Definition typeCell (columnTypes : typesObject) (header : value)
    : option string :=
  match lookupType (ToPropertyKey header) columnTypes with
  | Some t => Some (if String.eqb t EmptyString then "unknown" else t)
  | None =>
      if includes Object_prototype_names (ToPropertyKey header) then None
      else Some "unknown"
  end.

(** The object given to [setFileStructure]. *)
Definition structureReport (f : fileInfo) (d : decoded) : structure :=
  {| fileName := file_name f;
     fileSize := toFixed2 (num_div (int (file_size f)) (int 1024)) ++ " KB";
     sheetNames := SheetNames d;
     activeSheet := hd EmptyString (SheetNames d);
     rowCount := range_e_r d + 1;
     columnCount := range_e_c d + 1;
     headers := sheet_headers d;
     columnTypes := columnTypes_of (sheet_headers d) (sheet_jsonData d);
     sampleRows := sampleRows_of (sheet_jsonData d) |}.

(** [x.toFixed(1)]. *)
Definition toFixed1 (x : num) : string :=
  match x with
  | Fin q =>
      let s := if q_is_neg q then "-" else EmptyString in
      let a := Qabs q in
      if Qle_bool (inject_Z (10 ^ 21)) a then s ++ Number_toString (Fin a)
      else
        let n := (20 * Qnum a + Zpos (Qden a)) / (2 * Zpos (Qden a)) in
        s ++ decimal (n / 10) ++ "." ++ decimal (n mod 10)
  | _ => Number_toString x
  end.

(** What [renderHorizontalBarChart] computes: the two totals, the two
    percentages, and whether each percentage is written inside its bar. *)
Record participationRate : Type := {
  totalPresentEmployees : Z;
  totalAbsentEmployees : Z;
  presentPercentage : string;
  absentPercentage : string;
  presentInside : bool;
  absentInside : bool
}.

Definition renderHorizontalBarChart (stats : statsObject)
    : participationRate :=
  let totalPresentEmployees := reduce_sum presentEmployees stats in
  let totalAbsentEmployees := reduce_sum absentEmployees stats in
  let totalEmployees := totalPresentEmployees + totalAbsentEmployees in
  let presentPercentage :=
    toFixed1 (num_mul (num_div (int totalPresentEmployees)
                               (int totalEmployees)) (int 100)) in
  let absentPercentage :=
    toFixed1 (num_mul (num_div (int totalAbsentEmployees)
                               (int totalEmployees)) (int 100)) in
  {| totalPresentEmployees := totalPresentEmployees;
     totalAbsentEmployees := totalAbsentEmployees;
     presentPercentage := presentPercentage;
     absentPercentage := absentPercentage;
     presentInside := num_gt (StringToNumber presentPercentage) (int 5);
     absentInside := num_gt (StringToNumber absentPercentage) (int 5) |}.

(** The last cell of the "Total" row of the statistics table: the averages
    of the groups, read back from their strings and weighted by the group
    sizes, over the total size. *)
Definition overallAverage (stats : statsObject) : string :=
  toFixed2
    (num_div
       (fold_left
          (fun sum stat =>
             num_add sum
               (num_mul (parseFloat (ToString (avgPartTimePercentage stat)))
                        (int (totalEmployees stat))))
          (Object_values stats) (int 0))
       (int (reduce_sum totalEmployees stats))).

(** The heights, in pixels, computed for the bars of the distribution chart
    and of the present-against-absent chart. *)
Definition totalHeight (stat : managerStat) : Z :=
  Z.min (totalEmployees stat * 5) 250.

Definition presentHeight (stat : managerStat) : Z :=
  presentEmployees stat * 5.

Definition absentHeight (stat : managerStat) : Z :=
  absentEmployees stat * 5.

(** The end of the pending read of the file [f]. *)
Definition readEnds (f : fileInfo) (r : readResult) (a : app) : app :=
  match r with
  | ReadError => failWith read_error_message a
  | DecodeError => failWith decode_error_message a
  | Decoded d =>
      {| core := processFile (sheet_headers d) (sheet_jsonData d) (core a);
         file := file a;
         fileStructure := Some (structureReport f d);
         dragActive := dragActive a;
         showSampleData := showSampleData a |}
  end.

(** The effect of an event on the state; [None] when the element on screen
    does not offer it. *)
Definition handle (ev : event) (a : app) : option app :=
  if offered (view_of a) ev then
    match ev with
    | Drag type => Some (handleDrag type a)
    | Drop first =>
        let a := with_dragActive a false in
        Some (match first with
              | Some f => startProcessFile f a
              | None => a
              end)
    | Change first =>
        Some (match first with
              | Some f => startProcessFile f a
              | None => a
              end)
    | ReadEnds r =>
        match file a with
        | Some f => Some (readEnds f r a)
        | None => None
        end
    | TryAgain => Some (tryAgain a)
    | TabClick b => Some (with_activeTab a (tab_name b))
    | ContinueToAnalysis => Some (with_activeTab a "employees")
    | ToggleSampleData =>
        Some {| core := core a;
                file := file a;
                fileStructure := fileStructure a;
                dragActive := dragActive a;
                showSampleData := negb (showSampleData a) |}
    | DownloadExcel => Some a
    end
  else None.

(** The states the component can be in. *)
Inductive reachable : app -> Prop :=
| reachable_initial : reachable initial_app
| reachable_step (a a' : app) (ev : event) :
    reachable a -> handle ev a = Some a' -> reachable a'.

(** What is on screen is consistent: the upload tab and the spinner come
    with no data; the error panel comes with no data and one of the three
    messages; the tabs and the lone structure view come with the report, the
    records and the statistics of one and the same decoded sheet. *)
Definition consistent (a : app) : Prop :=
  match view_of a with
  | UploadTab =>
      data (core a) = [] /\ stats (core a) = [] /\ fileStructure a = None
  | Spinner =>
      data (core a) = [] /\ stats (core a) = [] /\ fileStructure a = None
      /\ file a <> None
  | ErrorPanel message =>
      data (core a) = [] /\ stats (core a) = []
      /\ In message [read_error_message; decode_error_message;
                     missing_columns_message]
  | Tabs _ | StructureOnly =>
      exists f d,
        file a = Some f
        /\ fileStructure a = Some (structureReport f d)
        /\ processSheet (sheet_headers d) (sheet_jsonData d)
           = Processed (data (core a)) (stats (core a))
  end.


(** The four shapes of a state: nothing loaded, a read pending, a read that
    failed, a sheet loaded. *)
Inductive shape (a : app) : Prop :=
| shape_clean :
    loading (core a) = false -> error (core a) = None ->
    fileStructure a = None ->
    data (core a) = [] -> stats (core a) = [] ->
    shape a
| shape_pending (f : fileInfo) :
    loading (core a) = true -> error (core a) = None ->
    fileStructure a = None ->
    data (core a) = [] -> stats (core a) = [] ->
    file a = Some f ->
    shape a
| shape_failed (message : string) :
    loading (core a) = false -> error (core a) = Some message ->
    In message [read_error_message; decode_error_message;
                missing_columns_message] ->
    data (core a) = [] -> stats (core a) = [] ->
    shape a
| shape_loaded (f : fileInfo) (d : decoded) :
    loading (core a) = false -> error (core a) = None ->
    file a = Some f ->
    fileStructure a = Some (structureReport f d) ->
    processSheet (sheet_headers d) (sheet_jsonData d)
    = Processed (data (core a)) (stats (core a)) ->
    shape a.


(** *** Statements of the specification, as predicates *)

Definition participation_headers : list value :=
  [VStr "Aanwezig"; VStr "Present"; VStr "Participation"].

(** The choice by priority of name, in a header list that holds more than one
    of the three names: "Aanwezig" is chosen over the other two, and "Present"
    over "Participation". *)
Definition chosen_by_priority (headers : list value) : Prop :=
  (In (VStr "Aanwezig") headers ->
   In (VStr "Present") headers \/ In (VStr "Participation") headers ->
   index headers (aanwezigIndex headers) = VStr "Aanwezig")
  /\ (~ In (VStr "Aanwezig") headers ->
      In (VStr "Present") headers ->
      In (VStr "Participation") headers ->
      index headers (aanwezigIndex headers) = VStr "Present").

(** The cell of the located participation column in a row; [undefined] when
    no column was located. *)
Definition participation_cell (headers row : list value) : value :=
  if aanwezigIndex headers =? -1 then VUndefined
  else index row (aanwezigIndex headers).

(** The counters of a group are non-negative and add up. *)
Definition counters_consistent (g : managerStat) : Prop :=
  0 <= totalEmployees g
  /\ 0 <= presentEmployees g
  /\ 0 <= absentEmployees g
  /\ presentEmployees g + absentEmployees g = totalEmployees g.

(** What is compared across a round trip. *)
Definition presence_and_manager (e : employee) : bool * value :=
  (isPresent (present e), manager e).

Definition session_of (formattedData : list employee)
    (managerStats : statsObject) : session :=
  {| data := formattedData;
     stats := managerStats;
     error := None;
     loading := false;
     activeTab := "structure" |}.

(** The round trip: the workbook downloaded from the state an accepted sheet
    produced is accepted in turn and yields records with the same classified
    presence and the same manager. *)
Definition roundtrip_holds (headers : list value)
    (jsonData : list (list value)) : Prop :=
  forall formattedData managerStats wb,
    processSheet headers jsonData = Processed formattedData managerStats ->
    downloadExcelWithHighlighting (session_of formattedData managerStats)
    = Some wb ->
    exists formattedData' managerStats',
      reimport wb = Some (Processed formattedData' managerStats')
      /\ map presence_and_manager formattedData'
         = map presence_and_manager formattedData.

(* ================================================================== *)
(** ** Properties *)

(** *** The model on concrete values *)

Example parseFloat_examples :
  parseFloat "50" = int 50
  /\ parseFloat " 12.5e1x" = int 125
  /\ parseFloat "80%" = int 80
  /\ parseFloat "-.5" = Fin (-1 # 2)
  /\ parseFloat "abc" = NaN
  /\ parseFloat "." = NaN.
Proof. repeat split; reflexivity. Qed.

(** The values the specification lists for [classifyPresence]: true, false,
    1, 0, "ja", "YES ", "nee", the empty string, undefined, null, "maybe". *)
Example isPresent_examples :
  map isPresent
      [VBool true; VBool false; VNum (int 1); VNum (int 0); VStr "ja";
       VStr "YES "; VStr "nee"; VStr EmptyString; VUndefined; VNull;
       VStr "maybe"]
  = [true; false; true; false; true; true; false; false; false; false;
     false].
Proof. reflexivity. Qed.

Example findIndex_examples :
  leidinggevendeIndex sample_headers = 10
  /\ parttimeIndex sample_headers = 11
  /\ aanwezigIndex sample_headers = 12
  /\ leidinggevendeIndex headers_without_manager = -1.
Proof. repeat split; reflexivity. Qed.

(** *** Basic facts about the JavaScript operations *)

Lemma includes_In (l : list string) (x : string) :
  includes l x = true <-> In x l.
Proof.
  unfold includes. rewrite existsb_exists. split.
  - intros [y [Hy Heq]]. apply String.eqb_eq in Heq. now subst.
  - intros H. exists x. split; [assumption | apply String.eqb_refl].
Qed.

Lemma includes_false (l : list string) (x : string) :
  includes l x = false <-> ~ In x l.
Proof.
  rewrite <- includes_In. destruct (includes l x); split; congruence.
Qed.

Lemma strict_eq_string (h : value) (s : string) :
  strict_eq h (VStr s) = true <-> h = VStr s.
Proof.
  destruct h; simpl; split; try congruence.
  - intros H. apply String.eqb_eq in H. now subst.
  - intros H. injection H as ->. apply String.eqb_refl.
Qed.

Lemma strict_eq_undefined (v : value) :
  strict_eq v VUndefined = true <-> v = VUndefined.
Proof. destruct v; simpl; split; congruence. Qed.

Lemma num_eq_zero (n : num) : num_eq n (int 0) = num_is_zero n.
Proof.
  destruct n as [| b | q]; try reflexivity.
  unfold num_eq, int, num_is_zero, q_is_zero, Qeq_bool. simpl.
  rewrite Z.mul_1_r. reflexivity.
Qed.

(** The aggregator's classification, kind by kind. *)
Lemma isPresent_eq (v : value) :
  isPresent v
  = match v with
    | VBool b => b
    | VNum n => negb (num_is_zero n)
    | VStr s => includes present_words (trim (toLowerCase s))
    | _ => false
    end.
Proof.
  destruct v as [| | b | n | s | ms]; try reflexivity.
  unfold isPresent. cbn [strict_eq negb andb]. rewrite num_eq_zero.
  reflexivity.
Qed.

Lemma is_participation_header_In (h : value) :
  is_participation_header h = true <-> In h participation_headers.
Proof.
  unfold is_participation_header, participation_headers.
  rewrite !orb_true_iff, !strict_eq_string. simpl.
  split.
  - intros [[H | H] | H]; subst; auto.
  - intros [H | [H | [H | []]]]; subst; auto.
Qed.

Lemma index_nth (a : list value) (i : Z) :
  0 <= i -> index a i = nth (Z.to_nat i) a VUndefined.
Proof.
  intros H. unfold index. destruct (i <? 0) eqn:E; [lia | reflexivity].
Qed.

Lemma index_beyond (a : list value) (i : Z) :
  Z.of_nat (List.length a) <= i -> index a i = VUndefined.
Proof.
  intros H. rewrite index_nth by lia. apply nth_overflow. lia.
Qed.

(** [findIndex] returns -1 when no element passes the test, and otherwise the
    position of the first one that does. *)
Lemma findIndex_from_spec {A : Type} (p : A -> bool) (d : A) (a : list A) :
  forall i,
    (findIndex_from p a i = -1 /\ Forall (fun x => p x = false) a)
    \/ (exists n, findIndex_from p a i = i + Z.of_nat n
                  /\ (n < List.length a)%nat
                  /\ p (nth n a d) = true
                  /\ forall m, (m < n)%nat -> p (nth m a d) = false).
Proof.
  induction a as [| x r IH]; intros i; simpl.
  - left. split; [reflexivity | constructor].
  - destruct (p x) eqn:Hx.
    + right. exists 0%nat. repeat split; simpl; try lia; assumption.
    + destruct (IH (i + 1)) as [[Hm Hall] | [n [Hn [Hlt [Hp Hbefore]]]]].
      * left. split; [assumption | constructor; assumption].
      * right. exists (S n). repeat split; simpl; try lia; [assumption |].
        intros [| m] Hm; [assumption | apply Hbefore; lia].
Qed.

Lemma findIndex_spec {A : Type} (p : A -> bool) (d : A) (a : list A) :
  (findIndex p a = -1 /\ Forall (fun x => p x = false) a)
  \/ (exists n, findIndex p a = Z.of_nat n
                /\ (n < List.length a)%nat
                /\ p (nth n a d) = true
                /\ forall m, (m < n)%nat -> p (nth m a d) = false).
Proof.
  unfold findIndex.
  destruct (findIndex_from_spec p d a 0) as [H | [n H]]; [left; exact H |].
  right. exists n. rewrite Z.add_0_l in H. exact H.
Qed.

Lemma findIndex_missing (headers : list value) (s : string) :
  findIndex (fun h => strict_eq h (VStr s)) headers = -1
  <-> ~ In (VStr s) headers.
Proof.
  destruct (findIndex_spec (fun h => strict_eq h (VStr s)) VUndefined headers)
    as [[Hm Hall] | [n [Hn [Hlt [Hp _]]]]].
  - split; [| intros _; assumption].
    intros _ Hin. rewrite Forall_forall in Hall.
    specialize (Hall _ Hin). simpl in Hall.
    rewrite String.eqb_refl in Hall. discriminate.
  - split; [lia |].
    intros Hnot. exfalso. apply Hnot.
    apply strict_eq_string in Hp. rewrite <- Hp. apply nth_In. assumption.
Qed.

(** *** The participation classification *)

(** C1.  The classification the aggregator computes is the specification's
    [classifyPresence] on every cell value: a boolean classifies as itself, a
    number as present exactly when it is not zero, a string as present exactly
    when its lower-cased, trimmed form is one of ja, yes, y, true, 1 (so nee,
    no, the empty string and unrecognised text are absent), and undefined and
    null as absent. *)
Theorem isPresent_is_classifyPresence :
  (forall v, isPresent v = classifyPresence v)
  /\ (forall b, isPresent (VBool b) = b)
  /\ (forall n, isPresent (VNum n) = true <-> num_is_zero n = false)
  /\ (forall s, isPresent (VStr s) = true
                <-> In (trim (toLowerCase s)) ["ja"; "yes"; "y"; "true"; "1"])
  /\ isPresent VUndefined = false
  /\ isPresent VNull = false
  /\ isPresent (VStr "nee") = false
  /\ isPresent (VStr "no") = false
  /\ isPresent (VStr EmptyString) = false
  /\ isPresent (VStr "maybe") = false.
Proof.
  split; [| split; [| split; [| split]]].
  - intros v. rewrite isPresent_eq.
    destruct v as [| | b | n | s | ms]; try reflexivity.
    + destruct b; reflexivity.
    + unfold classifyPresence, present_words.
      destruct (in_dec string_dec _ _) as [Hin | Hout].
      * apply includes_In. exact Hin.
      * apply includes_false. exact Hout.
  - reflexivity.
  - intros n. rewrite isPresent_eq.
    destruct (num_is_zero n); simpl; split; congruence.
  - intros s. rewrite isPresent_eq. unfold present_words. apply includes_In.
  - repeat split; reflexivity.
Qed.

Lemma present_word_neither_absent_nor_empty (x : string) :
  includes present_words x = true ->
  includes absent_words x = false /\ x <> EmptyString.
Proof.
  intros H. apply includes_In in H. unfold present_words in H. simpl in H.
  destruct H as [H | [H | [H | [H | [H | []]]]]]; subst;
    split; (reflexivity || discriminate).
Qed.

(** The highlighting predicate marks a value exactly when the aggregator
    classifies it as absent, provided the value is no [Date] and, for a
    string, carries no white space around it. *)
Lemma isPresentClassName_agrees (v : value) :
  (forall ms, v <> VDate ms) ->
  (forall s, v = VStr s -> trim (toLowerCase s) = toLowerCase s) ->
  (isPresentClassName v = "bg-red-200" <-> isPresent v = false).
Proof.
  intros Hdate Htrim.
  destruct v as [| | b | n | s | ms]; try (split; reflexivity).
  - destruct b; simpl; split; (reflexivity || discriminate).
  - rewrite isPresent_eq. unfold isPresentClassName. simpl.
    rewrite num_eq_zero. destruct (num_is_zero n); simpl; split;
      (reflexivity || discriminate).
  - rewrite isPresent_eq. unfold isPresentClassName.
    rewrite (Htrim s eq_refl). cbn [strict_eq orb].
    destruct (includes present_words (toLowerCase s)) eqn:Hp.
    + destruct (present_word_neither_absent_nor_empty _ Hp) as [Ha Hne].
      rewrite Ha.
      assert (Hs : String.eqb s EmptyString = false).
      { apply String.eqb_neq. intros ->. apply Hne. reflexivity. }
      rewrite Hs. simpl. split; discriminate.
    + rewrite orb_true_r, orb_true_r. split; reflexivity.
  - exfalso. apply (Hdate ms). reflexivity.
Qed.

(** The exported label is "Yes" exactly when the aggregator classifies the
    value as present, provided that a number is 0 or 1. *)
Lemma formatPresentDisplay_agrees (v : value) :
  (forall n, v = VNum n -> num_is_zero n = true \/ num_eq n (int 1) = true) ->
  (formatPresentDisplay v = "Yes" <-> isPresent v = true).
Proof.
  intros Hnum.
  destruct v as [| | b | n | s | ms];
    try (split; (reflexivity || discriminate)).
  - destruct b; simpl; split; (reflexivity || discriminate).
  - rewrite isPresent_eq. unfold formatPresentDisplay. cbn [strict_eq orb].
    destruct (Hnum n eq_refl) as [Hz | Hone].
    + rewrite Hz. destruct n as [| x | q]; try discriminate.
      assert (H1 : num_eq (Fin q) (int 1) = false).
      { unfold num_eq, int, Qeq_bool. simpl.
        unfold num_is_zero, q_is_zero in Hz. apply Z.eqb_eq in Hz.
        rewrite Hz. reflexivity. }
      rewrite H1. simpl. split; discriminate.
    + rewrite Hone. destruct n as [| x | q]; try discriminate.
      assert (H0 : num_is_zero (Fin q) = false).
      { unfold num_eq, int in Hone. apply Qeq_bool_iff in Hone.
        unfold Qeq in Hone. simpl in Hone.
        unfold num_is_zero, q_is_zero. apply Z.eqb_neq. lia. }
      rewrite H0. simpl. split; reflexivity.
  - rewrite isPresent_eq. unfold formatPresentDisplay. cbn [strict_eq orb].
    destruct (includes present_words (trim (toLowerCase s))).
    + split; reflexivity.
    + destruct (includes absent_words (trim (toLowerCase s)));
        split; discriminate.
Qed.

(** C2.  The three consumers of the participation flag do not agree on every
    cell value.  On the text " ja " the aggregator and the exported label say
    present while the highlighting predicate, which does not trim, marks the
    record as not present; on the number 2 the aggregator says present while
    the exported label is "No". *)
Theorem presence_consumers_disagree :
  isPresent (VStr " ja ") = true
  /\ formatPresentDisplay (VStr " ja ") = "Yes"
  /\ isPresentClassName (VStr " ja ") = "bg-red-200"
  /\ isPresent (VNum (int 2)) = true
  /\ isPresentClassName (VNum (int 2)) = EmptyString
  /\ formatPresentDisplay (VNum (int 2)) = "No".
Proof. repeat split; reflexivity. Qed.

(** *** Locating the columns *)

(** C6, as stated, fails: with "Present" in the first column and "Aanwezig"
    in the second, the located column is the one headed "Present". *)
Lemma priority_not_respected :
  ~ chosen_by_priority [VStr "Present"; VStr "Aanwezig"].
Proof.
  intros [H _].
  assert (Ha : In (VStr "Aanwezig") [VStr "Present"; VStr "Aanwezig"])
    by (right; left; reflexivity).
  assert (Hp : In (VStr "Present") [VStr "Present"; VStr "Aanwezig"])
    by (left; reflexivity).
  specialize (H Ha (or_introl Hp)). vm_compute in H. discriminate H.
Qed.

(** The index found for the participation column: -1 when no header is one
    of the three names, else the position of the first header that is. *)
Lemma aanwezigIndex_spec (headers : list value) :
  (aanwezigIndex headers = -1
   /\ forall h, In h headers -> ~ In h participation_headers)
  \/ (0 <= aanwezigIndex headers < Z.of_nat (List.length headers)
      /\ In (index headers (aanwezigIndex headers)) participation_headers
      /\ forall j, 0 <= j < aanwezigIndex headers ->
                   ~ In (index headers j) participation_headers).
Proof.
  unfold aanwezigIndex.
  destruct (findIndex_spec is_participation_header VUndefined headers)
    as [[Hm Hall] | [n [Hn [Hlt [Hp Hbefore]]]]].
  - left. split; [assumption |].
    intros h Hin Hpart. rewrite Forall_forall in Hall.
    apply is_participation_header_In in Hpart.
    rewrite (Hall h Hin) in Hpart. discriminate.
  - right. rewrite Hn. split; [lia |]. split.
    + rewrite index_nth by lia. rewrite Nat2Z.id.
      apply is_participation_header_In. assumption.
    + intros j Hj Hpart. rewrite index_nth in Hpart by lia.
      apply is_participation_header_In in Hpart.
      rewrite Hbefore in Hpart by lia. discriminate.
Qed.


(** C6, amended.  The participation column is the leftmost column whose
    header is exactly "Aanwezig", "Present" or "Participation": either no
    header is one of the three and the index is -1, or the index is that of a
    column headed by one of them and no column to its left is. *)
Theorem aanwezigIndex_leftmost (headers : list value) :
  (aanwezigIndex headers = -1
   /\ forall h, In h headers -> ~ In h participation_headers)
  \/ (0 <= aanwezigIndex headers < Z.of_nat (List.length headers)
      /\ In (index headers (aanwezigIndex headers)) participation_headers
      /\ forall j, 0 <= j < aanwezigIndex headers ->
                   ~ In (index headers j) participation_headers).
Proof. exact (aanwezigIndex_spec headers). Qed.

(** *** Normalisation *)

Lemma formatRow_present (li pi : Z) (headers row : list value) :
  (participation_cell headers row = VUndefined ->
   present (formatRow li pi (aanwezigIndex headers) row) = VStr "nee")
  /\ (participation_cell headers row <> VUndefined ->
      present (formatRow li pi (aanwezigIndex headers) row)
      = participation_cell headers row).
Proof.
  unfold participation_cell, formatRow. cbn [present].
  destruct (aanwezigIndex headers =? -1); cbn [negb].
  - split; [reflexivity | congruence].
  - destruct (strict_eq (index row (aanwezigIndex headers)) VUndefined) eqn:E.
    + apply strict_eq_undefined in E. split; [reflexivity | congruence].
    + split; [| reflexivity].
      intros H. apply strict_eq_undefined in H. congruence.
Qed.

Lemma processSheet_accepted (headers : list value)
    (jsonData : list (list value)) :
  In (VStr "Leidinggevende") headers ->
  In (VStr "Parttime (%)") headers ->
  processSheet headers jsonData
  = Processed
      (map (formatRow (leidinggevendeIndex headers) (parttimeIndex headers)
                      (aanwezigIndex headers))
           (slice1 jsonData))
      (computeAverages
         (aggregate
            (map (formatRow (leidinggevendeIndex headers)
                            (parttimeIndex headers) (aanwezigIndex headers))
                 (slice1 jsonData)))).
Proof.
  intros Hl Hp. unfold processSheet.
  destruct (leidinggevendeIndex headers =? -1) eqn:El.
  - apply Z.eqb_eq in El. apply findIndex_missing in El. contradiction.
  - destruct (parttimeIndex headers =? -1) eqn:Ep.
    + apply Z.eqb_eq in Ep. apply findIndex_missing in Ep. contradiction.
    + reflexivity.
Qed.

Lemma processSheet_rejected (headers : list value)
    (jsonData : list (list value)) :
  processSheet headers jsonData = MissingColumns
  <-> ~ In (VStr "Leidinggevende") headers
      \/ ~ In (VStr "Parttime (%)") headers.
Proof.
  unfold processSheet. split.
  - destruct (leidinggevendeIndex headers =? -1) eqn:El.
    + intros _. left. apply findIndex_missing. apply Z.eqb_eq. exact El.
    + destruct (parttimeIndex headers =? -1) eqn:Ep.
      * intros _. right. apply findIndex_missing. apply Z.eqb_eq. exact Ep.
      * discriminate.
  - intros [H | H]; apply findIndex_missing in H.
    + unfold leidinggevendeIndex. rewrite H. reflexivity.
    + unfold parttimeIndex. rewrite H. rewrite orb_true_r. reflexivity.
Qed.

Lemma processSheet_inversion (headers : list value)
    (jsonData : list (list value)) (d : list employee) (m : statsObject) :
  processSheet headers jsonData = Processed d m ->
  d = map (formatRow (leidinggevendeIndex headers) (parttimeIndex headers)
                     (aanwezigIndex headers))
          (slice1 jsonData)
  /\ m = computeAverages (aggregate d).
Proof.
  unfold processSheet.
  destruct ((leidinggevendeIndex headers =? -1)
            || (parttimeIndex headers =? -1)); [discriminate |].
  intros H. injection H as <- <-. split; reflexivity.
Qed.

(** C4.  Normalisation ends in the missing-columns error exactly when the
    header list has no entry equal to "Leidinggevende" or no entry equal to
    "Parttime (%)", wherever the entries stand; on that error no records and
    no statistics are produced: the state keeps the data and statistics it
    had, which are empty in a fresh session, and holds the error message. *)
Theorem missing_columns_iff (headers : list value)
    (jsonData : list (list value)) :
  (processSheet headers jsonData = MissingColumns
   <-> ~ In (VStr "Leidinggevende") headers
       \/ ~ In (VStr "Parttime (%)") headers)
  /\ (processSheet headers jsonData = MissingColumns ->
      forall s,
        data (processFile headers jsonData s) = data s
        /\ stats (processFile headers jsonData s) = stats s
        /\ error (processFile headers jsonData s)
           = Some missing_columns_message)
  /\ (processSheet headers jsonData = MissingColumns ->
      data (processFile headers jsonData initial_session) = []
      /\ stats (processFile headers jsonData initial_session) = []).
Proof.
  split; [apply processSheet_rejected |].
  split; intros H; [intros s |]; unfold processFile; rewrite H;
    repeat split; reflexivity.
Qed.

(** C8.  A sheet with both required headers is accepted, and it yields as
    many records as it has data rows, whatever the rows hold. *)
Theorem one_record_per_row (headers : list value)
    (jsonData : list (list value)) :
  In (VStr "Leidinggevende") headers ->
  In (VStr "Parttime (%)") headers ->
  exists formattedData managerStats,
    processSheet headers jsonData = Processed formattedData managerStats
    /\ List.length formattedData = List.length (slice1 jsonData).
Proof.
  intros Hl Hp. eexists. eexists. split.
  - apply processSheet_accepted; assumption.
  - apply length_map.
Qed.

(** C10.  Row by row, the [present] field of the record is the cell of the
    located participation column when that cell is defined, and the string
    "nee" when it is undefined; the cell is undefined when no participation
    column exists and when the row does not reach the column. *)
Theorem present_field_of_records (headers : list value)
    (jsonData : list (list value)) (formattedData : list employee)
    (managerStats : statsObject) :
  processSheet headers jsonData = Processed formattedData managerStats ->
  Forall2
    (fun row e =>
       (participation_cell headers row = VUndefined ->
        present e = VStr "nee")
       /\ (participation_cell headers row <> VUndefined ->
           present e = participation_cell headers row))
    (slice1 jsonData) formattedData
  /\ ((forall h, In h headers -> ~ In h participation_headers) ->
      forall row, participation_cell headers row = VUndefined)
  /\ (forall row,
        Z.of_nat (List.length row) <= aanwezigIndex headers ->
        participation_cell headers row = VUndefined).
Proof.
  intros H. apply processSheet_inversion in H. destruct H as [-> _].
  split; [| split].
  - induction (slice1 jsonData) as [| row rows IH]; simpl; constructor.
    + apply formatRow_present.
    + exact IH.
  - intros Hnone row. unfold participation_cell.
    destruct (aanwezigIndex_spec headers) as [[Hm _] | [Hr [Hin _]]].
    + rewrite Hm. reflexivity.
    + exfalso.
      assert (Hh : In (index headers (aanwezigIndex headers)) headers).
      { rewrite index_nth by lia. apply nth_In. lia. }
      exact (Hnone _ Hh Hin).
  - intros row Hlen. unfold participation_cell.
    destruct (aanwezigIndex headers =? -1); [reflexivity |].
    apply index_beyond. exact Hlen.
Qed.

(** *** Aggregation *)

Lemma update_Forall (P : managerStat -> Prop) (k : string)
    (f : managerStat -> managerStat) (o : statsObject) :
  (forall g, P g -> P (f g)) ->
  Forall (fun kv => P (snd kv)) o ->
  Forall (fun kv => P (snd kv)) (update k f o).
Proof.
  intros Hf. induction o as [| [k' g] r IH]; simpl; intros H.
  - constructor.
  - inversion H as [| ? ? Hg Hr]; subst.
    destruct (String.eqb k k'); constructor; simpl; auto.
Qed.

Lemma update_keys (k : string) (f : managerStat -> managerStat)
    (o : statsObject) :
  map fst (update k f o) = map fst o.
Proof.
  induction o as [| [k' g] r IH]; simpl; [reflexivity |].
  destruct (String.eqb k k'); simpl; [reflexivity | now rewrite IH].
Qed.

(** A property of groups that holds of a freshly counted group and survives
    counting holds of every group after each record. *)
Lemma foldEmployee_invariant (P : managerStat -> Prop) :
  (forall e, P (count e newGroup)) ->
  (forall e g, P g -> P (count e g)) ->
  forall o e,
    Forall (fun kv => P (snd kv)) o ->
    Forall (fun kv => P (snd kv)) (foldEmployee o e).
Proof.
  intros Hnew Hstep o e Ho. unfold foldEmployee.
  destruct (truthy (manager e)); [| assumption].
  destruct (lookup (ToPropertyKey (manager e)) o).
  - apply update_Forall; [apply Hstep | assumption].
  - destruct (includes Object_prototype_names _); [assumption |].
    apply Forall_app. split; [assumption |].
    constructor; [apply Hnew | constructor].
Qed.

Lemma fold_invariant (P : managerStat -> Prop) :
  (forall e, P (count e newGroup)) ->
  (forall e g, P g -> P (count e g)) ->
  forall l o,
    Forall (fun kv => P (snd kv)) o ->
    Forall (fun kv => P (snd kv)) (fold_left foldEmployee l o).
Proof.
  intros Hnew Hstep l. induction l as [| e r IH]; simpl; intros o Ho.
  - assumption.
  - apply IH. apply foldEmployee_invariant; assumption.
Qed.

Lemma aggregate_invariant (P : managerStat -> Prop) :
  (forall e, P (count e newGroup)) ->
  (forall e g, P g -> P (count e g)) ->
  forall l, Forall (fun kv => P (snd kv)) (aggregate l).
Proof.
  intros Hnew Hstep l. unfold aggregate.
  apply fold_invariant; [assumption | assumption | constructor].
Qed.

(** Each counted record increments [totalEmployees] and exactly one of
    [presentEmployees] and [absentEmployees]. *)
Lemma count_counters (e : employee) (g : managerStat) :
  totalEmployees (count e g) = totalEmployees g + 1
  /\ ((presentEmployees (count e g) = presentEmployees g + 1
       /\ absentEmployees (count e g) = absentEmployees g)
      \/ (presentEmployees (count e g) = presentEmployees g
          /\ absentEmployees (count e g) = absentEmployees g + 1)).
Proof.
  unfold count. cbn [totalEmployees presentEmployees absentEmployees].
  split; [reflexivity |].
  destruct (isPresent (present e)); [left | right]; split; reflexivity.
Qed.

Lemma count_consistent (e : employee) (g : managerStat) :
  counters_consistent g -> counters_consistent (count e g).
Proof.
  unfold counters_consistent. intros [Ht [Hp [Ha Hsum]]].
  destruct (count_counters e g) as [Et [[Ep Ea] | [Ep Ea]]];
    rewrite Et, Ep, Ea; lia.
Qed.

Lemma newGroup_consistent : counters_consistent newGroup.
Proof. unfold counters_consistent, newGroup. simpl. lia. Qed.

Lemma computeAverages_Forall (P : managerStat -> Prop) (o : statsObject) :
  (forall g, P g -> P (withAverage g)) ->
  Forall (fun kv => P (snd kv)) o ->
  Forall (fun kv => P (snd kv)) (computeAverages o).
Proof.
  intros Hf H. unfold computeAverages. apply Forall_map.
  eapply Forall_impl; [| exact H]. intros [k g] Hg. simpl in *. auto.
Qed.

(** C7.  For every sequence of records, after each step of the fold and in
    the resulting statistics, every manager group has non-negative counters
    with presentEmployees + absentEmployees = totalEmployees; each counted
    record increments totalEmployees and exactly one of the other two. *)
Theorem counters_add_up (formattedData : list employee) :
  (forall n,
      Forall (fun kv => counters_consistent (snd kv))
             (aggregate (firstn n formattedData)))
  /\ Forall (fun kv => counters_consistent (snd kv))
            (computeAverages (aggregate formattedData))
  /\ (forall e g,
        totalEmployees (count e g) = totalEmployees g + 1
        /\ ((presentEmployees (count e g) = presentEmployees g + 1
             /\ absentEmployees (count e g) = absentEmployees g)
            \/ (presentEmployees (count e g) = presentEmployees g
                /\ absentEmployees (count e g) = absentEmployees g + 1)))
  /\ (forall headers jsonData managerStats,
        processSheet headers jsonData = Processed formattedData managerStats ->
        Forall (fun kv => counters_consistent (snd kv)) managerStats).
Proof.
  assert (Hall : forall l,
             Forall (fun kv => counters_consistent (snd kv)) (aggregate l)).
  { apply aggregate_invariant.
    - intros e. apply count_consistent. apply newGroup_consistent.
    - apply count_consistent. }
  assert (Havg : forall l,
             Forall (fun kv => counters_consistent (snd kv))
                    (computeAverages (aggregate l))).
  { intros l. apply computeAverages_Forall; [| apply Hall].
    intros g Hg. exact Hg. }
  split; [intros n; apply Hall |].
  split; [apply Havg |].
  split; [apply count_counters |].
  intros headers jsonData m H.
  apply processSheet_inversion in H. destruct H as [_ ->]. apply Havg.
Qed.

Lemma foldEmployee_keys (o : statsObject) (e : employee) (k : string) :
  In k (map fst (foldEmployee o e)) ->
  In k (map fst o)
  \/ (truthy (manager e) = true /\ ToPropertyKey (manager e) = k).
Proof.
  unfold foldEmployee.
  destruct (truthy (manager e)) eqn:Et; [| auto].
  destruct (lookup (ToPropertyKey (manager e)) o).
  - rewrite update_keys. auto.
  - destruct (includes Object_prototype_names _); [auto |].
    rewrite map_app, in_app_iff. simpl.
    intros [H | [H | []]]; auto.
Qed.

Lemma fold_keys (l : list employee) :
  forall o k,
    In k (map fst (fold_left foldEmployee l o)) ->
    In k (map fst o)
    \/ exists e, In e l /\ truthy (manager e) = true
                 /\ ToPropertyKey (manager e) = k.
Proof.
  induction l as [| e r IH]; simpl; intros o k H.
  - auto.
  - destruct (IH _ _ H) as [Hk | [e' [Hin He']]].
    + destruct (foldEmployee_keys _ _ _ Hk) as [Ho | He]; [auto |].
      right. exists e. auto.
    + right. exists e'. auto.
Qed.

Lemma computeAverages_keys (o : statsObject) :
  map fst (computeAverages o) = map fst o.
Proof.
  unfold computeAverages. rewrite map_map. reflexivity.
Qed.

(** C9.  Every manager group of the output statistics was created by a
    record with that manager and has totalEmployees at least 1, so the
    divisor of the average is never zero; the average is the sum divided by
    totalEmployees, rendered with two decimals in the pass after the fold. *)
Theorem divisor_at_least_one (headers : list value)
    (jsonData : list (list value)) (formattedData : list employee)
    (managerStats : statsObject) :
  processSheet headers jsonData = Processed formattedData managerStats ->
  Forall
    (fun kv =>
       1 <= totalEmployees (snd kv)
       /\ num_is_zero (int (totalEmployees (snd kv))) = false
       /\ avgPartTimePercentage (snd kv)
          = VStr (toFixed2
                    (num_div (ToNumber (totalPartTimePercentage (snd kv)))
                             (int (totalEmployees (snd kv))))))
    managerStats
  /\ (forall k,
        In k (map fst managerStats) ->
        exists e, In e formattedData /\ truthy (manager e) = true
                  /\ ToPropertyKey (manager e) = k).
Proof.
  intros H. apply processSheet_inversion in H. destruct H as [_ ->].
  split.
  - unfold computeAverages. apply Forall_map.
    eapply Forall_impl;
      [| apply (aggregate_invariant (fun g => 1 <= totalEmployees g))].
    + intros [k g] Hg. simpl in *. repeat split; try assumption.
      unfold num_is_zero, int, q_is_zero. simpl. apply Z.eqb_neq. lia.
    + intros e. unfold count, newGroup. simpl. lia.
    + intros e g Hg. destruct (count_counters e g) as [Et _].
      rewrite Et. lia.
  - intros k Hk. rewrite computeAverages_keys in Hk.
    unfold aggregate in Hk.
    destruct (fold_keys _ _ _ Hk) as [[] | He]. exact He.
Qed.

(** A record whose part-time cell is falsy (undefined, null, false, 0, NaN
    or the empty string) leaves the sum of its group as it was. *)
Lemma count_skips_falsy (e : employee) (g : managerStat) :
  truthy (partTimePercentage e) = false ->
  totalPartTimePercentage (count e g) = totalPartTimePercentage g.
Proof.
  intros H. unfold count. cbn [totalPartTimePercentage]. rewrite H.
  reflexivity.
Qed.

(** A record whose part-time cell is a non-empty string that [parseFloat]
    cannot read turns a numeric sum into [NaN]. *)
Lemma count_unparsable (e : employee) (g : managerStat) (s : string)
    (n : num) :
  partTimePercentage e = VStr s ->
  s <> EmptyString ->
  parseFloat s = NaN ->
  totalPartTimePercentage g = VNum n ->
  totalPartTimePercentage (count e g) = VNum NaN.
Proof.
  intros Hs Hne Hnan Hg. unfold count. cbn [totalPartTimePercentage].
  rewrite Hs, Hg, Hnan. simpl.
  destruct (String.eqb s EmptyString) eqn:E.
  - apply String.eqb_eq in E. contradiction.
  - simpl. destruct n; reflexivity.
Qed.

(** C3.  The sheet with the two rows of Alice, the second with the part-time
    cell "abc": the sum of the group is [NaN], not 50, and the average is
    rendered "NaN". *)
Theorem unparsable_percentage_poisons_sum :
  exists formattedData,
    processSheet sample_headers unparsable_jsonData
    = Processed formattedData
        [("Alice",
          {| totalEmployees := 2;
             presentEmployees := 1;
             absentEmployees := 1;
             totalPartTimePercentage := VNum NaN;
             avgPartTimePercentage := VStr "NaN" |})].
Proof. eexists. vm_compute. reflexivity. Qed.

(** *** Re-export *)

(** C5, amended.  The workbook that is downloaded is rejected with the
    missing-columns error when uploaded again: its first sheet, "Employees",
    is headed Name, Function, PO, Part-time %, Present, and so has neither
    required header.  That sheet holds one row per record, with the record's
    manager in the third cell and the label of its present value in the
    fifth. *)
Theorem exported_workbook_is_rejected (s : session) (wb : workbook) :
  downloadExcelWithHighlighting s = Some wb ->
  reimport wb = Some MissingColumns
  /\ exists rows,
       hd_error wb = Some ("Employees", employees_header :: rows)
       /\ Forall2
            (fun e row =>
               index row 2 = manager e
               /\ index row 4 = VStr (formatPresentDisplay (present e)))
            (data s) rows.
Proof.
  unfold downloadExcelWithHighlighting.
  destruct (data s) as [| e0 r] eqn:Ed; [discriminate |].
  intros H. injection H as <-. split.
  - reflexivity.
  - exists (map employee_row (e0 :: r)). split; [reflexivity |].
    generalize (e0 :: r). intros l.
    induction l as [| e l IH]; simpl; constructor.
    + split; reflexivity.
    + exact IH.
Qed.

(** *** Grouping *)

Lemma lookup_update_same (k : string) (f : managerStat -> managerStat)
    (o : statsObject) :
  lookup k (update k f o) = option_map f (lookup k o).
Proof.
  induction o as [| [k' g] r IH]; simpl; [reflexivity |].
  destruct (String.eqb k k') eqn:E; simpl; rewrite E; [reflexivity | exact IH].
Qed.

Lemma lookup_update_other (k k' : string) (f : managerStat -> managerStat)
    (o : statsObject) :
  k <> k' -> lookup k (update k' f o) = lookup k o.
Proof.
  intros Hne. induction o as [| [k0 g] r IH]; simpl; [reflexivity |].
  destruct (String.eqb k' k0) eqn:E; simpl.
  - apply String.eqb_eq in E. subst k0.
    destruct (String.eqb k k') eqn:E'; [| reflexivity].
    apply String.eqb_eq in E'. contradiction.
  - destruct (String.eqb k k0); [reflexivity | exact IH].
Qed.

Lemma lookup_app_one (k k' : string) (g : managerStat) (o : statsObject) :
  lookup k (o ++ [(k', g)])%list
  = match lookup k o with
    | Some x => Some x
    | None => if String.eqb k k' then Some g else None
    end.
Proof.
  induction o as [| [k0 g0] r IH]; simpl; [reflexivity |].
  destruct (String.eqb k k0); [reflexivity | exact IH].
Qed.

Lemma lookup_None (k : string) (o : statsObject) :
  lookup k o = None <-> ~ In k (map fst o).
Proof.
  induction o as [| [k0 g0] r IH]; simpl.
  - split; [intros _ [] | reflexivity].
  - destruct (String.eqb k k0) eqn:E.
    + apply String.eqb_eq in E. subst. split; [discriminate |].
      intros H. exfalso. apply H. left. reflexivity.
    + apply String.eqb_neq in E. rewrite IH. split.
      * intros H [H1 | H1]; [congruence | contradiction].
      * intros H H1. apply H. right. exact H1.
Qed.

Lemma lookup_Some_In (k : string) (g : managerStat) (o : statsObject) :
  lookup k o = Some g -> In (k, g) o.
Proof.
  induction o as [| [k0 g0] r IH]; simpl; [discriminate |].
  destruct (String.eqb k k0) eqn:E.
  - apply String.eqb_eq in E. subst. intros H. injection H as ->.
    left. reflexivity.
  - intros H. right. apply IH. exact H.
Qed.

Lemma proto_free_lookup (k : string) (g : managerStat) (o : statsObject) :
  proto_free o -> lookup k o = Some g ->
  includes Object_prototype_names k = false.
Proof.
  intros Hfree Hk. apply lookup_Some_In in Hk.
  unfold proto_free in Hfree. rewrite Forall_forall in Hfree.
  exact (Hfree _ Hk).
Qed.

Lemma update_proto_free (k : string) (f : managerStat -> managerStat)
    (o : statsObject) :
  proto_free o -> proto_free (update k f o).
Proof.
  unfold proto_free. induction o as [| [k0 g0] r IH]; simpl; intros H.
  - constructor.
  - inversion H as [| ? ? Hk Hr]; subst.
    destruct (String.eqb k k0); constructor; simpl in *; auto.
Qed.

Lemma foldEmployee_proto_free (o : statsObject) (e : employee) :
  proto_free o -> proto_free (foldEmployee o e).
Proof.
  intros H. unfold foldEmployee.
  destruct (truthy (manager e)); [| exact H].
  destruct (lookup (ToPropertyKey (manager e)) o).
  - apply update_proto_free. exact H.
  - destruct (includes Object_prototype_names _) eqn:E; [exact H |].
    apply Forall_app. split; [exact H |].
    constructor; [exact E | constructor].
Qed.

(** What one step of the fold does to the group under [k]. *)
Lemma lookup_foldEmployee (k : string) (o : statsObject) (e : employee) :
  proto_free o ->
  lookup k (foldEmployee o e)
  = if counted e && String.eqb (groupKey e) k
    then Some (count e (match lookup k o with
                        | Some g => g
                        | None => newGroup
                        end))
    else lookup k o.
Proof.
  intros Hfree. unfold foldEmployee, counted, groupKey.
  destruct (truthy (manager e)); [| reflexivity]. cbn [andb].
  destruct (lookup (ToPropertyKey (manager e)) o) as [g0 |] eqn:El.
  - rewrite (proto_free_lookup _ _ _ Hfree El). cbn [negb andb].
    destruct (String.eqb (ToPropertyKey (manager e)) k) eqn:E.
    + apply String.eqb_eq in E. subst k.
      rewrite lookup_update_same, El. reflexivity.
    + apply String.eqb_neq in E. apply lookup_update_other. congruence.
  - destruct (includes Object_prototype_names _); [reflexivity |].
    cbn [negb andb]. rewrite lookup_app_one.
    destruct (String.eqb (ToPropertyKey (manager e)) k) eqn:E.
    + apply String.eqb_eq in E. subst k. rewrite El.
      rewrite String.eqb_refl. reflexivity.
    + rewrite String.eqb_sym, E. destruct (lookup k o); reflexivity.
Qed.

(** The group under [k] after folding a list into an object: the records of
    the list grouped under [k], counted in order on top of what the object
    held. *)
Lemma lookup_fold (k : string) (l : list employee) :
  forall o,
    proto_free o ->
    lookup k (fold_left foldEmployee l o)
    = match lookup k o, group_of k l with
      | Some g, l' => Some (countAll l' g)
      | None, [] => None
      | None, l' => Some (countAll l' newGroup)
      end.
Proof.
  induction l as [| e r IH]; intros o Hfree.
  - simpl. destruct (lookup k o); reflexivity.
  - cbn [fold_left]. rewrite IH by (apply foldEmployee_proto_free; exact Hfree).
    rewrite lookup_foldEmployee by exact Hfree.
    unfold group_of. cbn [filter]. fold (group_of k r).
    destruct (counted e && String.eqb (groupKey e) k).
    + destruct (lookup k o); reflexivity.
    + destruct (lookup k o); reflexivity.
Qed.

Lemma lookup_aggregate (k : string) (formattedData : list employee) :
  lookup k (aggregate formattedData)
  = match group_of k formattedData with
    | [] => None
    | l => Some (countAll l newGroup)
    end.
Proof.
  unfold aggregate. rewrite lookup_fold by constructor.
  simpl. destruct (group_of k formattedData); reflexivity.
Qed.

Lemma lookup_computeAverages (k : string) (o : statsObject) :
  lookup k (computeAverages o) = option_map withAverage (lookup k o).
Proof.
  unfold computeAverages.
  induction o as [| [k0 g0] r IH]; simpl; [reflexivity |].
  destruct (String.eqb k k0); [reflexivity | exact IH].
Qed.

Lemma countAll_counters (l : list employee) :
  forall g,
    totalEmployees (countAll l g)
    = totalEmployees g + Z.of_nat (List.length l)
    /\ presentEmployees (countAll l g)
       = presentEmployees g + how_many (fun e => isPresent (present e)) l
    /\ absentEmployees (countAll l g)
       = absentEmployees g
         + how_many (fun e => negb (isPresent (present e))) l.
Proof.
  unfold countAll, how_many.
  induction l as [| e r IH]; intros g.
  - simpl. repeat split; lia.
  - cbn [fold_left]. destruct (IH (count e g)) as [Ht [Hp Ha]].
    rewrite Ht, Hp, Ha. clear IH Ht Hp Ha.
    unfold count.
    cbn [totalEmployees presentEmployees absentEmployees filter List.length].
    destruct (isPresent (present e)); cbn [negb List.length];
      repeat split; lia.
Qed.

(** X1.  Each group of the statistics is the result of counting, in order
    and from an empty group, exactly the records whose manager gives its key:
    records of other managers, wherever they stand in the list, leave it
    untouched, and a key without such a record has no group. *)
Theorem group_is_its_records (formattedData : list employee) (k : string) :
  lookup k (computeAverages (aggregate formattedData))
  = match group_of k formattedData with
    | [] => None
    | l => Some (withAverage (countAll l newGroup))
    end.
Proof.
  rewrite lookup_computeAverages, lookup_aggregate.
  destruct (group_of k formattedData); reflexivity.
Qed.

(** X2.  In the output statistics the counters of a group are the numbers of
    records of that manager: all of them, those classified present, those
    classified absent; a group has at least one record. *)
Theorem group_counts (formattedData : list employee) (k : string)
    (g : managerStat) :
  lookup k (computeAverages (aggregate formattedData)) = Some g ->
  group_of k formattedData <> []
  /\ totalEmployees g = Z.of_nat (List.length (group_of k formattedData))
  /\ presentEmployees g
     = how_many (fun e => isPresent (present e)) (group_of k formattedData)
  /\ absentEmployees g
     = how_many (fun e => negb (isPresent (present e)))
                (group_of k formattedData).
Proof.
  rewrite lookup_computeAverages, lookup_aggregate.
  destruct (group_of k formattedData) as [| e r] eqn:Eg; [discriminate |].
  intros H. injection H as <-. split; [discriminate |].
  destruct (countAll_counters (e :: r) newGroup) as [Ht [Hp Ha]].
  unfold withAverage. cbn [totalEmployees presentEmployees absentEmployees].
  change (countAll r (count e newGroup)) with (countAll (e :: r) newGroup).
  rewrite Ht, Hp, Ha. unfold newGroup.
  cbn [totalEmployees presentEmployees absentEmployees].
  repeat split; lia.
Qed.

(** *** The keys of the statistics *)

Lemma includes_keys_lookup (k : string) (o : statsObject) :
  includes (map fst o) k = false <-> lookup k o = None.
Proof. rewrite includes_false, lookup_None. reflexivity. Qed.

Lemma keys_foldEmployee (o : statsObject) (e : employee) :
  proto_free o ->
  map fst (foldEmployee o e)
  = if counted e && negb (includes (map fst o) (groupKey e))
    then (map fst o ++ [groupKey e])%list
    else map fst o.
Proof.
  intros Hfree. unfold foldEmployee, counted, groupKey.
  destruct (truthy (manager e)); [| reflexivity]. cbn [andb].
  destruct (lookup (ToPropertyKey (manager e)) o) as [g0 |] eqn:El.
  - rewrite update_keys.
    destruct (includes (map fst o) (ToPropertyKey (manager e))) eqn:Ei.
    + rewrite andb_false_r. reflexivity.
    + apply includes_keys_lookup in Ei. congruence.
  - apply includes_keys_lookup in El. rewrite El.
    destruct (includes Object_prototype_names _); [reflexivity |].
    cbn [negb andb]. rewrite map_app. reflexivity.
Qed.

Lemma filter_fresh_snoc (ks : list string) (k : string) (X : list string) :
  filter (fun x => negb (includes (ks ++ [k]) x)) X
  = filter (fun x => negb (includes ks x)) (remove string_dec k X).
Proof.
  induction X as [| x r IH]; [reflexivity |].
  cbn [filter remove]. unfold includes at 1. rewrite existsb_app.
  fold (includes ks x). cbn [existsb]. rewrite orb_false_r.
  destruct (string_dec k x) as [-> | Hne].
  - rewrite String.eqb_refl, orb_true_r. cbn [negb]. exact IH.
  - assert (E : String.eqb x k = false)
      by (apply String.eqb_neq; congruence).
    rewrite E, orb_false_r. cbn [filter].
    destruct (negb (includes ks x)); [f_equal |]; exact IH.
Qed.

Lemma filter_fresh_remove (ks : list string) (k : string) (X : list string) :
  includes ks k = true ->
  filter (fun x => negb (includes ks x)) (remove string_dec k X)
  = filter (fun x => negb (includes ks x)) X.
Proof.
  intros Hk. induction X as [| x r IH]; [reflexivity |].
  cbn [filter remove].
  destruct (string_dec k x) as [-> | Hne].
  - rewrite Hk. cbn [negb]. exact IH.
  - cbn [filter]. destruct (negb (includes ks x)); [f_equal |]; exact IH.
Qed.

Lemma keys_fold (l : list employee) :
  forall o,
    proto_free o ->
    map fst (fold_left foldEmployee l o)
    = (map fst o
       ++ filter (fun k => negb (includes (map fst o) k))
                 (first_occurrences (map groupKey (filter counted l))))%list.
Proof.
  induction l as [| e r IH]; intros o Hfree.
  - simpl. rewrite app_nil_r. reflexivity.
  - cbn [fold_left]. rewrite IH by (apply foldEmployee_proto_free; exact Hfree).
    rewrite keys_foldEmployee by exact Hfree.
    cbn [filter]. destruct (counted e) eqn:Ec; cbn [andb].
    + cbn [map first_occurrences filter].
      destruct (includes (map fst o) (groupKey e)) eqn:Ei; cbn [negb].
      * rewrite filter_fresh_remove by exact Ei. reflexivity.
      * rewrite filter_fresh_snoc, <- app_assoc. reflexivity.
    + reflexivity.
Qed.

Lemma filter_all (X : list string) :
  filter (fun k => negb (includes [] k)) X = X.
Proof.
  induction X as [| x r IH]; [reflexivity |].
  simpl. f_equal. exact IH.
Qed.

Lemma NoDup_remove_string (k : string) (X : list string) :
  NoDup X -> NoDup (remove string_dec k X).
Proof.
  induction 1 as [| x r Hx Hr IH]; simpl; [constructor |].
  destruct (string_dec k x); [exact IH |].
  constructor; [| exact IH].
  intros Hin. apply in_remove in Hin. apply Hx. apply Hin.
Qed.

Lemma NoDup_first_occurrences (l : list string) :
  NoDup (first_occurrences l).
Proof.
  induction l as [| k r IH]; simpl; constructor.
  - apply remove_In.
  - apply NoDup_remove_string. exact IH.
Qed.

Lemma In_first_occurrences (k : string) (l : list string) :
  In k (first_occurrences l) <-> In k l.
Proof.
  induction l as [| x r IH]; simpl; [reflexivity |].
  split.
  - intros [H | H]; [left; exact H |].
    apply in_remove in H. right. apply IH. apply H.
  - intros [H | H]; [left; exact H |].
    destruct (string_dec x k) as [E | Hne]; [left; exact E |].
    right. apply in_in_remove; [congruence | apply IH; exact H].
Qed.

(** X3.  The statistics hold one group per manager key and no key twice, in
    the order in which the keys first occur among the counted records; a key
    is there exactly when some counted record has it. *)
Theorem groups_in_first_encounter_order (formattedData : list employee) :
  map fst (computeAverages (aggregate formattedData))
  = first_occurrences (map groupKey (filter counted formattedData))
  /\ NoDup (map fst (computeAverages (aggregate formattedData)))
  /\ forall k,
       In k (map fst (computeAverages (aggregate formattedData)))
       <-> exists e, In e formattedData /\ counted e = true
                     /\ groupKey e = k.
Proof.
  assert (Hk : map fst (computeAverages (aggregate formattedData))
               = first_occurrences
                   (map groupKey (filter counted formattedData))).
  { rewrite computeAverages_keys. unfold aggregate.
    rewrite keys_fold by constructor. simpl. apply filter_all. }
  split; [exact Hk |]. rewrite Hk. split.
  - apply NoDup_first_occurrences.
  - intros k. rewrite In_first_occurrences, in_map_iff. split.
    + intros [e [He Hin]]. apply filter_In in Hin. exists e. tauto.
    + intros [e [Hin [Hc He]]]. exists e. split; [exact He |].
      apply filter_In. tauto.
Qed.

(** *** The order of display and the totals *)

Lemma insert_by_index_perm {A : Type} (x : Z * A) (l : list (Z * A)) :
  Permutation (insert_by_index x l) (x :: l).
Proof.
  induction l as [| y r IH]; simpl; [reflexivity |].
  destruct (fst x <=? fst y); [reflexivity |].
  rewrite IH. apply perm_swap.
Qed.

Lemma sorted_entries_perm {A : Type} (l : list (Z * A)) :
  Permutation (fold_right insert_by_index [] l) l.
Proof.
  induction l as [| x r IH]; simpl; [reflexivity |].
  rewrite insert_by_index_perm. constructor. exact IH.
Qed.

Lemma Object_entries_perm (o : statsObject) :
  Permutation (Object_entries o) o.
Proof.
  unfold Object_entries. rewrite sorted_entries_perm.
  unfold indexed_entries, named_entries.
  induction o as [| [k g] r IH]; simpl; [reflexivity |].
  destruct (array_index k); simpl.
  - constructor. exact IH.
  - rewrite <- Permutation_middle. constructor. exact IH.
Qed.

Lemma fold_left_sum (f : managerStat -> Z) (l : list managerStat) :
  forall acc,
    fold_left (fun sum stat => sum + f stat) l acc
    = acc + fold_right (fun stat a => f stat + a) 0 l.
Proof.
  induction l as [| x r IH]; intros acc; simpl; [lia |].
  rewrite IH. lia.
Qed.

Lemma sumZ_perm (f : managerStat -> Z) (o o' : statsObject) :
  Permutation o o' -> sumZ f o = sumZ f o'.
Proof.
  unfold sumZ. induction 1; simpl; lia.
Qed.

Lemma reduce_sum_sumZ (f : managerStat -> Z) (o : statsObject) :
  reduce_sum f o = sumZ f o.
Proof.
  unfold reduce_sum, Object_values. rewrite fold_left_sum.
  rewrite <- (sumZ_perm f _ _ (Object_entries_perm o)).
  unfold sumZ. generalize (Object_entries o). intros l.
  induction l as [| x r IH]; simpl; lia.
Qed.

Lemma sumZ_app (f : managerStat -> Z) (o o' : statsObject) :
  sumZ f (o ++ o')%list = sumZ f o + sumZ f o'.
Proof.
  unfold sumZ. induction o as [| x r IH]; simpl; lia.
Qed.

Lemma sumZ_update (f : managerStat -> Z) (c : managerStat -> managerStat)
    (d : Z) (k : string) (o : statsObject) (g0 : managerStat) :
  (forall g, f (c g) = f g + d) ->
  lookup k o = Some g0 ->
  sumZ f (update k c o) = sumZ f o + d.
Proof.
  intros Hc. unfold sumZ.
  induction o as [| [k0 g] r IH]; simpl; [discriminate |].
  destruct (String.eqb k k0); simpl.
  - intros _. rewrite Hc. lia.
  - intros H. rewrite (IH H). lia.
Qed.

Lemma sumZ_foldEmployee (f : managerStat -> Z) (p : employee -> bool)
    (o : statsObject) (e : employee) :
  f newGroup = 0 ->
  (forall e g, f (count e g) = f g + (if p e then 1 else 0)) ->
  proto_free o ->
  sumZ f (foldEmployee o e)
  = sumZ f o + (if counted e && p e then 1 else 0).
Proof.
  intros Hnew Hc Hfree. unfold foldEmployee, counted, groupKey.
  destruct (truthy (manager e)); [| simpl; lia]. cbn [andb].
  destruct (lookup (ToPropertyKey (manager e)) o) as [g0 |] eqn:El.
  - rewrite (proto_free_lookup _ _ _ Hfree El). cbn [negb andb].
    apply (sumZ_update f (count e) _ _ _ g0); [apply Hc | exact El].
  - destruct (includes Object_prototype_names _); cbn [negb andb].
    + lia.
    + rewrite sumZ_app. unfold sumZ at 2. simpl. rewrite Hc, Hnew. lia.
Qed.

Lemma sumZ_fold (f : managerStat -> Z) (p : employee -> bool)
    (l : list employee) :
  f newGroup = 0 ->
  (forall e g, f (count e g) = f g + (if p e then 1 else 0)) ->
  forall o,
    proto_free o ->
    sumZ f (fold_left foldEmployee l o)
    = sumZ f o + how_many (fun e => counted e && p e) l.
Proof.
  intros Hnew Hc. unfold how_many.
  induction l as [| e r IH]; intros o Hfree.
  - simpl. lia.
  - cbn [fold_left]. rewrite IH by (apply foldEmployee_proto_free; exact Hfree).
    rewrite (sumZ_foldEmployee f p) by assumption.
    cbn [filter]. destruct (counted e && p e); cbn [List.length]; lia.
Qed.

Lemma sumZ_computeAverages (f : managerStat -> Z) (o : statsObject) :
  (forall g, f (withAverage g) = f g) ->
  sumZ f (computeAverages o) = sumZ f o.
Proof.
  intros H. unfold sumZ, computeAverages.
  induction o as [| [k g] r IH]; simpl; [reflexivity |].
  rewrite H, IH. reflexivity.
Qed.

Lemma how_many_le {A : Type} (p : A -> bool) (l : list A) :
  0 <= how_many p l <= Z.of_nat (List.length l).
Proof.
  unfold how_many. pose proof (filter_length_le p l). lia.
Qed.

Lemma how_many_ext {A : Type} (p q : A -> bool) (l : list A) :
  (forall x, In x l -> p x = q x) -> how_many p l = how_many q l.
Proof.
  intros H. unfold how_many. f_equal. f_equal.
  induction l as [| x r IH]; [reflexivity |].
  simpl. rewrite (H x) by (left; reflexivity).
  rewrite IH by (intros y Hy; apply H; right; exact Hy). reflexivity.
Qed.

Lemma output_total (f : managerStat -> Z) (p : employee -> bool)
    (formattedData : list employee) :
  f newGroup = 0 ->
  (forall e g, f (count e g) = f g + (if p e then 1 else 0)) ->
  (forall g, f (withAverage g) = f g) ->
  reduce_sum f (computeAverages (aggregate formattedData))
  = how_many (fun e => counted e && p e) formattedData.
Proof.
  intros Hnew Hc Havg.
  rewrite reduce_sum_sumZ, sumZ_computeAverages by exact Havg.
  unfold aggregate. rewrite (sumZ_fold f p) by (assumption || constructor).
  reflexivity.
Qed.

Lemma count_total (e : employee) (g : managerStat) :
  totalEmployees (count e g) = totalEmployees g + (if true then 1 else 0).
Proof. reflexivity. Qed.

Lemma count_present (e : employee) (g : managerStat) :
  presentEmployees (count e g)
  = presentEmployees g + (if isPresent (present e) then 1 else 0).
Proof.
  unfold count. cbn [presentEmployees].
  destruct (isPresent (present e)); lia.
Qed.

Lemma count_absent (e : employee) (g : managerStat) :
  absentEmployees (count e g)
  = absentEmployees g + (if negb (isPresent (present e)) then 1 else 0).
Proof.
  unfold count. cbn [absentEmployees].
  destruct (isPresent (present e)); cbn [negb]; lia.
Qed.

(** X4.  The totals of the statistics tab count records: the sum of
    totalEmployees over the groups is the number of counted records, the sums
    of presentEmployees and absentEmployees are the numbers of counted
    records classified present and absent, the two add up to the first, and
    the first never exceeds the number of records. *)
Theorem totals_count_records (formattedData : list employee) :
  reduce_sum totalEmployees (computeAverages (aggregate formattedData))
  = how_many counted formattedData
  /\ reduce_sum presentEmployees (computeAverages (aggregate formattedData))
     = how_many (fun e => counted e && isPresent (present e)) formattedData
  /\ reduce_sum absentEmployees (computeAverages (aggregate formattedData))
     = how_many (fun e => counted e && negb (isPresent (present e)))
                formattedData
  /\ reduce_sum presentEmployees (computeAverages (aggregate formattedData))
     + reduce_sum absentEmployees (computeAverages (aggregate formattedData))
     = reduce_sum totalEmployees (computeAverages (aggregate formattedData))
  /\ reduce_sum totalEmployees (computeAverages (aggregate formattedData))
     <= Z.of_nat (List.length formattedData).
Proof.
  assert (Ht : reduce_sum totalEmployees
                 (computeAverages (aggregate formattedData))
               = how_many counted formattedData).
  { rewrite (output_total totalEmployees (fun _ => true));
      [| reflexivity | apply count_total | reflexivity].
    apply how_many_ext. intros e _. apply andb_true_r. }
  assert (Hp : reduce_sum presentEmployees
                 (computeAverages (aggregate formattedData))
               = how_many (fun e => counted e && isPresent (present e))
                          formattedData).
  { apply (output_total presentEmployees
             (fun e => isPresent (present e)));
      [reflexivity | apply count_present | reflexivity]. }
  assert (Ha : reduce_sum absentEmployees
                 (computeAverages (aggregate formattedData))
               = how_many
                   (fun e => counted e && negb (isPresent (present e)))
                   formattedData).
  { apply (output_total absentEmployees
             (fun e => negb (isPresent (present e))));
      [reflexivity | apply count_absent | reflexivity]. }
  rewrite Ht, Hp, Ha. repeat split.
  - unfold how_many. clear Ht Hp Ha.
    induction formattedData as [| e r IH]; [reflexivity |].
    cbn [filter].
    destruct (counted e); destruct (isPresent (present e));
      cbn [andb negb List.length]; lia.
  - apply how_many_le.
Qed.

(** *** Where the three participation predicates part *)

Lemma present_word_trimmed (x : string) :
  includes present_words x = true -> trim x = x.
Proof.
  intros H. apply includes_In in H. unfold present_words in H. simpl in H.
  destruct H as [H | [H | [H | [H | [H | []]]]]]; subst; reflexivity.
Qed.

Lemma highlighted_string (s : string) :
  negb (String.eqb (isPresentClassName (VStr s)) EmptyString)
  = (String.eqb s EmptyString
     || (includes absent_words (toLowerCase s)
         || negb (includes present_words (toLowerCase s)))).
Proof.
  unfold isPresentClassName. cbn [strict_eq orb].
  destruct (_ || _); reflexivity.
Qed.

Lemma bool_neq_negb (a b : bool) : a <> negb b <-> a = b.
Proof. destruct a, b; simpl; split; congruence. Qed.

(** X5.  The row of a value is highlighted exactly when the aggregator
    classifies the value as absent, except for a [Date] (absent, yet not
    highlighted) and for a recognised present word with white space around it
    (present, yet highlighted); on no other value do the two differ. *)
Theorem highlight_differs_exactly (v : value) :
  negb (String.eqb (isPresentClassName v) EmptyString) <> negb (isPresent v)
  <-> (exists ms, v = VDate ms)
      \/ (exists s, v = VStr s
                    /\ In (trim (toLowerCase s)) present_words
                    /\ trim (toLowerCase s) <> toLowerCase s).
Proof.
  rewrite bool_neq_negb, isPresent_eq.
  destruct v as [| | b | n | s | ms].
  - split; [discriminate | intros [[ms H] | [s [H _]]]; discriminate].
  - split; [discriminate | intros [[ms H] | [s [H _]]]; discriminate].
  - destruct b; (split; [discriminate
                        | intros [[ms H] | [s [H _]]]; discriminate]).
  - unfold isPresentClassName. simpl. rewrite num_eq_zero.
    destruct (num_is_zero n); simpl;
      (split; [discriminate | intros [[ms H] | [s [H _]]]; discriminate]).
  - rewrite highlighted_string.
    destruct (includes present_words (toLowerCase s)) eqn:Hp.
    + pose proof (present_word_trimmed _ Hp) as Ht.
      destruct (present_word_neither_absent_nor_empty _ Hp) as [Ha Hne].
      assert (Hs : String.eqb s EmptyString = false).
      { apply String.eqb_neq. intros ->. apply Hne. reflexivity. }
      rewrite Hs, Ha, Ht, Hp. cbn [negb orb]. split; [discriminate |].
      intros [[ms H] | [s' [H [_ Hneq]]]]; [discriminate |].
      injection H as <-. contradiction.
    + cbn [negb]. rewrite orb_true_r, orb_true_r. split.
      * intros H. right. exists s. split; [reflexivity |]. split.
        -- apply includes_In. symmetry. exact H.
        -- intros E. rewrite E, Hp in H. discriminate.
      * intros [[ms H] | [s' [H [Hin _]]]]; [discriminate |].
        injection H as <-. apply includes_In in Hin. symmetry. exact Hin.
  - simpl. split; [intros _; left; exists ms; reflexivity | reflexivity].
Qed.

(** X6.  The label is "Yes" exactly when the aggregator classifies the value
    as present, except for a number that is neither 0 nor 1 (present for the
    aggregator, labelled "No"); on no other value do the two differ. *)
Theorem label_differs_exactly (v : value) :
  String.eqb (formatPresentDisplay v) "Yes" <> isPresent v
  <-> exists n, v = VNum n /\ num_is_zero n = false
                /\ num_eq n (int 1) = false.
Proof.
  rewrite isPresent_eq.
  destruct v as [| | b | n | s | ms].
  - split; [intros H; exfalso; apply H; reflexivity
           | intros [n [H _]]; discriminate].
  - split; [intros H; exfalso; apply H; reflexivity
           | intros [n [H _]]; discriminate].
  - destruct b; (split; [intros H; exfalso; apply H; reflexivity
                        | intros [n [H _]]; discriminate]).
  - unfold formatPresentDisplay. cbn [strict_eq orb].
    destruct (num_eq n (int 1)) eqn:H1.
    + assert (H0 : num_is_zero n = false).
      { destruct n as [| x | q]; try discriminate.
        unfold num_eq, int in H1. apply Qeq_bool_iff in H1.
        unfold Qeq in H1. simpl in H1.
        unfold num_is_zero, q_is_zero. apply Z.eqb_neq. lia. }
      rewrite H0. simpl. split; [intros H; exfalso; apply H; reflexivity |].
      intros [n' [H [_ Hn]]]. injection H as <-. congruence.
    + simpl. destruct (num_is_zero n) eqn:H0; simpl.
      * split; [intros H; exfalso; apply H; reflexivity |].
        intros [n' [H [Hz _]]]. injection H as <-. congruence.
      * split; [| discriminate].
        intros _. exists n. repeat split; assumption.
  - unfold formatPresentDisplay. cbn [strict_eq orb].
    destruct (includes present_words (trim (toLowerCase s))).
    + split; [intros H; exfalso; apply H; reflexivity
             | intros [n [H _]]; discriminate].
    + destruct (includes absent_words (trim (toLowerCase s)));
        (split; [intros H; exfalso; apply H; reflexivity
                | intros [n [H _]]; discriminate]).
  - split; [intros H; exfalso; apply H; reflexivity
           | intros [n [H _]]; discriminate].
Qed.

(** X7.  When every record is counted and no present value is a [Date] or a
    string with white space around it, the "Non-Participating" badge of the
    employee table equals the "Absent" total of the statistics tab. *)
Theorem badge_matches_absent_total (formattedData : list employee) :
  (forall e, In e formattedData -> counted e = true) ->
  (forall e, In e formattedData ->
             (forall ms, present e <> VDate ms)
             /\ forall s, present e = VStr s ->
                          trim (toLowerCase s) = toLowerCase s) ->
  nonParticipatingCount formattedData
  = reduce_sum absentEmployees (computeAverages (aggregate formattedData)).
Proof.
  intros Hcounted Hclean.
  rewrite (output_total absentEmployees
             (fun e => negb (isPresent (present e))));
    [| reflexivity | apply count_absent | reflexivity].
  unfold nonParticipatingCount. apply how_many_ext.
  intros e He. rewrite (Hcounted e He). cbn [andb].
  destruct (Hclean e He) as [Hd Hs].
  pose proof (isPresentClassName_agrees (present e) Hd Hs) as [H1 H2].
  destruct (isPresent (present e)) eqn:Ep; cbn [negb].
  - destruct (String.eqb (isPresentClassName (present e)) EmptyString) eqn:E;
      [reflexivity |].
    exfalso. unfold isPresentClassName in *.
    destruct (_ || _); [specialize (H1 eq_refl) | ]; discriminate.
  - rewrite (H2 eq_refl). reflexivity.
Qed.

(** *** The part-time sum of a group *)

Lemma count_numeric (e : employee) (g : managerStat) (n : num) :
  (forall ms, partTimePercentage e <> VDate ms) ->
  totalPartTimePercentage g = VNum n ->
  exists n', totalPartTimePercentage (count e g) = VNum n'
             /\ (n = NaN -> n' = NaN).
Proof.
  intros Hd Hg. unfold count. cbn [totalPartTimePercentage]. rewrite Hg.
  destruct (truthy (partTimePercentage e)); [| exists n; auto].
  destruct (partTimePercentage e) as [| | b | m | s | ms];
    try (eexists; split; [reflexivity | intros ->; reflexivity]).
  exfalso. apply (Hd ms). reflexivity.
Qed.

Lemma countAll_numeric (l : list employee) :
  forall g n,
    (forall e, In e l -> forall ms, partTimePercentage e <> VDate ms) ->
    totalPartTimePercentage g = VNum n ->
    exists n', totalPartTimePercentage (countAll l g) = VNum n'
               /\ (n = NaN -> n' = NaN).
Proof.
  unfold countAll. induction l as [| e r IH]; intros g n Hd Hg.
  - exists n. auto.
  - cbn [fold_left].
    destruct (count_numeric e g n (Hd e (or_introl eq_refl)) Hg)
      as [n1 [H1 Hnan1]].
    destruct (IH (count e g) n1
                 (fun e' He' => Hd e' (or_intror He')) H1)
      as [n2 [H2 Hnan2]].
    exists n2. split; [exact H2 | auto].
Qed.

Lemma countAll_poisoned (l : list employee) (e : employee) (s : string) :
  forall g n,
    (forall e', In e' l -> forall ms, partTimePercentage e' <> VDate ms) ->
    In e l ->
    partTimePercentage e = VStr s ->
    s <> EmptyString ->
    parseFloat s = NaN ->
    totalPartTimePercentage g = VNum n ->
    totalPartTimePercentage (countAll l g) = VNum NaN.
Proof.
  induction l as [| x r IH]; intros g n Hd Hin Hs Hne Hnan Hg; [destruct Hin |].
  unfold countAll. cbn [fold_left]. fold (countAll r (count x g)).
  destruct Hin as [-> | Hin].
  - pose proof (count_unparsable e g s n Hs Hne Hnan Hg) as H1.
    destruct (countAll_numeric r (count e g) NaN
                (fun e' He' => Hd e' (or_intror He')) H1) as [n2 [H2 Hn2]].
    rewrite H2, Hn2; reflexivity.
  - destruct (count_numeric x g n (Hd x (or_introl eq_refl)) Hg)
      as [n1 [H1 _]].
    apply (IH (count x g) n1); try assumption.
    intros e' He'. apply Hd. right. exact He'.
Qed.

(** X8.  One part-time cell that is a non-empty string [parseFloat] cannot
    read makes the sum of its whole group [NaN] and its average "NaN",
    whatever the other records of the group hold, as long as none of them
    holds a [Date] there. *)
Theorem unparsable_cell_poisons_group (formattedData : list employee)
    (k : string) (e : employee) (s : string) :
  In e formattedData ->
  counted e = true ->
  groupKey e = k ->
  partTimePercentage e = VStr s ->
  s <> EmptyString ->
  parseFloat s = NaN ->
  (forall e', In e' formattedData -> groupKey e' = k ->
              forall ms, partTimePercentage e' <> VDate ms) ->
  exists g,
    lookup k (computeAverages (aggregate formattedData)) = Some g
    /\ totalPartTimePercentage g = VNum NaN
    /\ avgPartTimePercentage g = VStr "NaN".
Proof.
  intros Hin Hc Hk Hs Hne Hnan Hd.
  assert (Hg : In e (group_of k formattedData)).
  { unfold group_of. apply filter_In. split; [exact Hin |].
    rewrite Hc, Hk, String.eqb_refl. reflexivity. }
  assert (Hsum : totalPartTimePercentage
                   (countAll (group_of k formattedData) newGroup)
                 = VNum NaN).
  { apply (countAll_poisoned _ e s newGroup (int 0));
      try assumption; [| reflexivity].
    intros e' He'. unfold group_of in He'. apply filter_In in He'.
    destruct He' as [He' Hb]. apply andb_true_iff in Hb.
    destruct Hb as [_ Hb]. apply String.eqb_eq in Hb.
    apply Hd; assumption. }
  rewrite lookup_computeAverages, lookup_aggregate.
  destruct (group_of k formattedData) as [| x r] eqn:Eg; [destruct Hg |].
  eexists. split; [reflexivity |].
  unfold withAverage.
  cbn [totalPartTimePercentage avgPartTimePercentage].
  split; [exact Hsum |]. unfold divide. rewrite Hsum. reflexivity.
Qed.



(** *** The states of the component *)

Lemma message_not_empty (message : string) :
  In message [read_error_message; decode_error_message;
              missing_columns_message] ->
  String.eqb message EmptyString = false.
Proof.
  intros [H | [H | [H | []]]]; subst; reflexivity.
Qed.

Lemma shape_consistent (a : app) : shape a -> consistent a.
Proof.
  intros [Hl He Hf Hd Hs | f Hl He Hf Hd Hs Hfile | m Hl He Hm Hd Hs
          | f d Hl He Hfile Hf Hp];
    unfold consistent, view_of; rewrite Hl; try rewrite He.
  - rewrite Hf. auto.
  - repeat split; try assumption. rewrite Hfile. discriminate.
  - rewrite (message_not_empty m Hm). cbn [negb]. auto.
  - rewrite Hf.
    destruct (0 <? Z.of_nat (List.length (data (core a))));
      exists f, d; auto.
Qed.

Lemma processFile_shape (headers0 : list value)
    (jsonData : list (list value)) (s : session) :
  data s = [] -> stats s = [] ->
  let s' := processFile headers0 jsonData s in
  loading s' = false
  /\ ((error s' = Some missing_columns_message
       /\ data s' = [] /\ stats s' = [])
      \/ (error s' = None
          /\ processSheet headers0 jsonData
             = Processed (data s') (stats s'))).
Proof.
  intros Hd Hs. unfold processFile.
  destruct (processSheet headers0 jsonData) as [| fd ms] eqn:E; simpl.
  - split; [reflexivity |]. left. auto.
  - split; [reflexivity |]. right. auto.
Qed.

Lemma shape_step (a a' : app) (ev : event) :
  shape a -> handle ev a = Some a' -> shape a'.
Proof.
  intros Hshape. unfold handle.
  destruct (offered (view_of a) ev) eqn:Hoff; [| discriminate].
  destruct Hshape as [Hl He Hf Hd Hs | f Hl He Hf Hd Hs Hfile
                      | m Hl He Hm Hd Hs | f d Hl He Hfile Hf Hp].
  - (* nothing loaded: the upload tab *)
    unfold view_of in Hoff. rewrite Hl, He, Hf in Hoff.
    destruct ev; try discriminate Hoff; intros H; injection H as <-.
    + unfold handleDrag.
      destruct (_ || _); [| destruct (String.eqb _ _)];
        apply shape_clean; assumption.
    + destruct first as [f |].
      * apply (shape_pending _ f); simpl; auto.
      * apply shape_clean; assumption.
    + destruct first as [f |].
      * apply (shape_pending _ f); simpl; auto.
      * apply shape_clean; assumption.
  - (* a read pending: the spinner *)
    unfold view_of in Hoff. rewrite Hl in Hoff.
    destruct ev; try discriminate Hoff. rewrite Hfile.
    intros H; injection H as <-.
    destruct r as [| | d]; simpl.
    + apply (shape_failed _ read_error_message); simpl; auto.
    + apply (shape_failed _ decode_error_message); simpl; auto.
    + destruct (processFile_shape (sheet_headers d) (sheet_jsonData d)
                  (core a) Hd Hs) as [Hl' [[He' [Hd' Hs']] | [He' Hp']]].
      * apply (shape_failed _ missing_columns_message); simpl; auto.
      * apply (shape_loaded _ f d); simpl; auto.
  - (* a read that failed: the error panel *)
    unfold view_of in Hoff.
    rewrite Hl, He, (message_not_empty m Hm) in Hoff. cbn [negb] in Hoff.
    destruct ev; try discriminate Hoff. intros H; injection H as <-.
    apply shape_clean; simpl; auto.
  - (* a sheet loaded: the tabs or the lone structure view *)
    assert (Hkeep : forall tab, shape (with_activeTab a tab)).
    { intros tab. apply (shape_loaded _ f d); simpl; auto. }
    unfold view_of in Hoff. rewrite Hl, He, Hf in Hoff.
    destruct ev;
      try (destruct (0 <? Z.of_nat (List.length (data (core a))));
           [destruct (content_of (activeTab (core a))) |];
           discriminate Hoff);
      intros H; injection H as <-; try apply Hkeep.
    + apply (shape_loaded _ f d); simpl; auto.
    + apply (shape_loaded _ f d); assumption.
Qed.

Lemma reachable_shape (a : app) : reachable a -> shape a.
Proof.
  induction 1 as [| a a' ev _ IH Hstep].
  - apply shape_clean; reflexivity.
  - exact (shape_step a a' ev IH Hstep).
Qed.

(** X10.  In every state the component can reach, what is on screen is
    consistent: the upload tab and the spinner are shown with no records and
    no statistics in the state, so a read never starts over older results;
    the error panel is shown with no records and no statistics and with one
    of the three messages; the tabs and the lone structure view are shown
    with the report, the records and the statistics of one and the same
    decoded sheet. *)
Theorem screen_is_consistent (a : app) :
  reachable a -> consistent a.
Proof.
  intros H. apply shape_consistent. apply reachable_shape. exact H.
Qed.

(** *** The structure report *)

Lemma slice_from_1 {A : Type} (a : list A) (stop : Z) :
  slice a 1 stop = firstn (Z.to_nat (stop - 1)) (slice1 a).
Proof. unfold slice, slice1. destruct a; reflexivity. Qed.

(** X11.  The sample of the structure report is made of the first data rows
    of the sheet, in order, and holds four of them at most: all the data rows
    when there are fewer than five. *)
Theorem sample_is_first_four_rows (jsonData : list (list value)) :
  sampleRows_of jsonData = firstn 4 (slice1 jsonData)
  /\ List.length (sampleRows_of jsonData)
     = Nat.min 4 (List.length (slice1 jsonData)).
Proof.
  assert (H : sampleRows_of jsonData = firstn 4 (slice1 jsonData)).
  { unfold sampleRows_of. rewrite slice_from_1.
    destruct (Z.le_ge_cases 5 (Z.of_nat (List.length jsonData))) as [Hge | Hlt].
    - rewrite Z.min_l by exact Hge. reflexivity.
    - rewrite Z.min_r by exact Hlt.
      assert (Hlen : List.length (slice1 jsonData)
                     = Z.to_nat (Z.of_nat (List.length jsonData) - 1)).
      { unfold slice1. destruct jsonData; cbn [tl List.length]; lia. }
      rewrite <- Hlen. rewrite firstn_all.
      symmetry. apply firstn_all2. lia. }
  split; [exact H |]. rewrite H. apply length_firstn.
Qed.

Lemma Set_add_In (x t : string) (s : list string) :
  In t (Set_add x s) <-> In t s \/ t = x.
Proof.
  unfold Set_add. destruct (includes s x) eqn:E.
  - apply includes_In in E. split; [auto |].
    intros [H | ->]; assumption.
  - rewrite in_app_iff. simpl. split.
    + intros [H | [H | []]]; auto.
    + intros [H | H]; auto.
Qed.

Lemma Set_add_NoDup (x : string) (s : list string) :
  NoDup s -> NoDup (Set_add x s).
Proof.
  intros H. unfold Set_add. destruct (includes s x) eqn:E; [exact H |].
  apply includes_false in E.
  apply NoDup_app; [exact H | repeat constructor; intros [] |].
  intros a Ha [Hx | []]. subst. contradiction.
Qed.

Lemma typeSet_fold (idx : Z) (rows : list (list value)) :
  forall types,
    NoDup types ->
    let result :=
      fold_left (fun types row =>
                   if negb (strict_eq (index row idx) VUndefined)
                   then Set_add (typeof (index row idx)) types
                   else types) rows types in
    NoDup result
    /\ forall t,
         In t result
         <-> In t types
             \/ exists row, In row rows /\ index row idx <> VUndefined
                            /\ typeof (index row idx) = t.
Proof.
  induction rows as [| row r IH]; intros types Hnd; cbn zeta.
  - simpl. split; [exact Hnd |]. intros t. split; [auto |].
    intros [H | [row [[] _]]]. exact H.
  - cbn [fold_left].
    destruct (strict_eq (index row idx) VUndefined) eqn:E; cbn [negb].
    + apply strict_eq_undefined in E.
      destruct (IH types Hnd) as [H1 H2]. split; [exact H1 |].
      intros t. rewrite H2. split.
      * intros [H | [row' [Hin Hrow]]]; [auto |].
        right. exists row'. split; [right; exact Hin | exact Hrow].
      * intros [H | [row' [[<- | Hin] [Hdef Hty]]]]; [auto | contradiction |].
        right. exists row'. auto.
    + assert (Hdef : index row idx <> VUndefined).
      { intros H. apply strict_eq_undefined in H. congruence. }
      destruct (IH (Set_add (typeof (index row idx)) types)
                   (Set_add_NoDup _ _ Hnd)) as [H1 H2].
      split; [exact H1 |]. intros t. rewrite H2, Set_add_In. split.
      * intros [[H | ->] | [row' [Hin Hrow]]]; [auto | |].
        -- right. exists row. split; [left; reflexivity | auto].
        -- right. exists row'. split; [right; exact Hin | exact Hrow].
      * intros [H | [row' [[<- | Hin] [Hd Hty]]]]; [auto | auto |].
        right. exists row'. auto.
Qed.

Lemma join_empty (sep : string) (l : list string) :
  Forall (fun x => x <> EmptyString) l ->
  (join sep l = EmptyString <-> l = []).
Proof.
  intros H. split; [| intros ->; reflexivity].
  destruct l as [| x r]; [reflexivity |].
  inversion H as [| ? ? Hx Hr]; subst.
  destruct x as [| c x']; [contradiction |].
  destruct r; simpl; discriminate.
Qed.

Lemma typeof_defined (v : value) :
  v <> VUndefined ->
  In (typeof v) ["boolean"; "number"; "string"; "object"].
Proof.
  destruct v; simpl; intros H; auto; contradiction.
Qed.

(** X12.  The type signature of a column lists, without repeats, exactly the
    [typeof] of the defined cells of that column in the first nine data rows:
    each is one of boolean, number, string, object; rows after the ninth are
    not looked at; the signature is empty exactly when the column has no
    defined cell in those rows. *)
Theorem column_signature_of_first_nine (idx : Z)
    (jsonData : list (list value)) :
  NoDup (columnTypeSet idx jsonData)
  /\ (forall t,
        In t (columnTypeSet idx jsonData)
        <-> exists row, In row (firstn 9 (slice1 jsonData))
                        /\ index row idx <> VUndefined
                        /\ typeof (index row idx) = t)
  /\ Forall (fun t => In t ["boolean"; "number"; "string"; "object"])
            (columnTypeSet idx jsonData)
  /\ columnSignature idx jsonData
     = columnSignature idx (firstn 10 jsonData)
  /\ (columnSignature idx jsonData = EmptyString
      <-> forall row, In row (firstn 9 (slice1 jsonData)) ->
                      index row idx = VUndefined).
Proof.
  assert (Hw : slice jsonData 1 10 = firstn 9 (slice1 jsonData))
    by apply slice_from_1.
  destruct (typeSet_fold idx (slice jsonData 1 10) [] (NoDup_nil _))
    as [Hnd Hin].
  fold (columnTypeSet idx jsonData) in Hnd, Hin.
  assert (Hin' : forall t,
             In t (columnTypeSet idx jsonData)
             <-> exists row, In row (firstn 9 (slice1 jsonData))
                             /\ index row idx <> VUndefined
                             /\ typeof (index row idx) = t).
  { intros t. rewrite Hin, Hw. split; [| auto].
    intros [[] | H]. exact H. }
  assert (Hty : Forall (fun t => In t ["boolean"; "number"; "string";
                                        "object"])
                       (columnTypeSet idx jsonData)).
  { apply Forall_forall. intros t Ht. apply Hin' in Ht.
    destruct Ht as [row [_ [Hdef <-]]]. apply typeof_defined. exact Hdef. }
  split; [exact Hnd |]. split; [exact Hin' |]. split; [exact Hty |]. split.
  - unfold columnSignature, columnTypeSet. f_equal. f_equal.
    destruct jsonData as [| h r]; [reflexivity |].
    change (firstn 9 r = firstn 9 (firstn 9 r)).
    rewrite firstn_firstn. reflexivity.
  - unfold columnSignature. rewrite join_empty.
    + split.
      * intros Hnil row Hrow.
        destruct (index row idx) eqn:E; try reflexivity;
          exfalso;
          assert (Hin0 : In (typeof (index row idx))
                            (columnTypeSet idx jsonData))
            by (apply Hin'; exists row; rewrite E; repeat split;
                [exact Hrow | discriminate]);
          rewrite Hnil in Hin0; destruct Hin0.
      * intros Hall.
        destruct (columnTypeSet idx jsonData) as [| t r] eqn:E;
          [reflexivity |].
        exfalso.
        assert (Ht : In t (t :: r)) by (left; reflexivity).
        apply Hin' in Ht. destruct Ht as [row [Hrow [Hdef _]]].
        apply Hdef. apply Hall. exact Hrow.
    + eapply Forall_impl; [| exact Hty].
      intros t [H | [H | [H | [H | []]]]]; subst; discriminate.
Qed.

Lemma lookupType_assign_same (k t : string) (o : typesObject) :
  lookupType k (assign k t o) = Some t.
Proof.
  induction o as [| [k' t'] r IH]; simpl.
  - rewrite String.eqb_refl. reflexivity.
  - destruct (String.eqb k k') eqn:E; simpl; rewrite E;
      [reflexivity | exact IH].
Qed.

Lemma lookupType_assign_other (k k' t : string) (o : typesObject) :
  k <> k' -> lookupType k (assign k' t o) = lookupType k o.
Proof.
  intros Hne. induction o as [| [k0 t0] r IH]; simpl.
  - apply String.eqb_neq in Hne. rewrite Hne. reflexivity.
  - destruct (String.eqb k' k0) eqn:E; simpl.
    + apply String.eqb_eq in E. subst k0.
      apply String.eqb_neq in Hne. rewrite Hne. reflexivity.
    + destruct (String.eqb k k0); [reflexivity | exact IH].
Qed.

Lemma columnTypes_from_app (pre post : list value)
    (jsonData : list (list value)) :
  forall idx o,
    columnTypes_from (pre ++ post) idx jsonData o
    = columnTypes_from post (idx + Z.of_nat (List.length pre)) jsonData
        (columnTypes_from pre idx jsonData o).
Proof.
  induction pre as [| h r IH]; intros idx o.
  - simpl. rewrite Z.add_0_r. reflexivity.
  - cbn [List.app columnTypes_from List.length]. rewrite IH.
    f_equal. lia.
Qed.

Lemma columnTypes_from_other (k : string) (hs : list value)
    (jsonData : list (list value)) :
  (forall h, In h hs -> truthy h = true -> ToPropertyKey h <> k) ->
  forall idx o,
    lookupType k (columnTypes_from hs idx jsonData o) = lookupType k o.
Proof.
  induction hs as [| h r IH]; intros Hother idx o; [reflexivity |].
  cbn [columnTypes_from].
  rewrite IH by (intros h' Hin; apply Hother; right; exact Hin).
  destruct (truthy h) eqn:Et; [| reflexivity].
  unfold setProperty. destruct (String.eqb _ "__proto__"); [reflexivity |].
  apply lookupType_assign_other.
  intros E. apply (Hother h (or_introl eq_refl) Et). symmetry. exact E.
Qed.

(** X13.  When several columns bear the same header, the structure report
    gives that header the type signature of the last of them, and the
    structure table shows that signature, or "unknown" when it is empty. *)
Theorem last_column_names_the_type (pre post : list value) (h : value)
    (jsonData : list (list value)) :
  truthy h = true ->
  ToPropertyKey h <> "__proto__" ->
  (forall h', In h' post -> truthy h' = true ->
              ToPropertyKey h' <> ToPropertyKey h) ->
  lookupType (ToPropertyKey h)
             (columnTypes_of (pre ++ h :: post) jsonData)
  = Some (columnSignature (Z.of_nat (List.length pre)) jsonData)
  /\ typeCell (columnTypes_of (pre ++ h :: post) jsonData) h
     = Some (if String.eqb
                  (columnSignature (Z.of_nat (List.length pre)) jsonData)
                  EmptyString
             then "unknown"
             else columnSignature (Z.of_nat (List.length pre)) jsonData).
Proof.
  intros Ht Hproto Hlast.
  assert (H : lookupType (ToPropertyKey h)
                (columnTypes_of (pre ++ h :: post) jsonData)
              = Some (columnSignature (Z.of_nat (List.length pre))
                                      jsonData)).
  { unfold columnTypes_of.
    rewrite columnTypes_from_app. cbn [columnTypes_from].
    rewrite columnTypes_from_other by exact Hlast.
    rewrite Ht. unfold setProperty.
    apply String.eqb_neq in Hproto. rewrite Hproto.
    rewrite Z.add_0_l. apply lookupType_assign_same. }
  split; [exact H |]. unfold typeCell. rewrite H. reflexivity.
Qed.

(** *** Normalisation by header name *)

Lemma findIndex_from_first {A : Type} (p : A -> bool) (pre post : list A)
    (x : A) :
  (forall y, In y pre -> p y = false) ->
  p x = true ->
  forall i,
    findIndex_from p (pre ++ x :: post) i = i + Z.of_nat (List.length pre).
Proof.
  intros Hpre Hx. induction pre as [| y r IH]; intros i.
  - simpl. rewrite Hx. lia.
  - cbn [List.app findIndex_from List.length].
    rewrite (Hpre y (or_introl eq_refl)).
    rewrite IH by (intros z Hz; apply Hpre; right; exact Hz). lia.
Qed.

Lemma findIndex_first_header (pre post : list value) (s : string) :
  ~ In (VStr s) pre ->
  findIndex (fun h => strict_eq h (VStr s)) (pre ++ VStr s :: post)
  = Z.of_nat (List.length pre).
Proof.
  intros Hpre. unfold findIndex. rewrite findIndex_from_first.
  - lia.
  - intros y Hy. destruct (strict_eq y (VStr s)) eqn:E; [| reflexivity].
    apply strict_eq_string in E. subst. contradiction.
  - simpl. apply String.eqb_refl.
Qed.

(** X14.  The manager and the part-time percentage of every record are the
    cells under the leftmost columns headed "Leidinggevende" and
    "Parttime (%)", wherever those columns stand; the identifier, the name,
    the function and the employer are the cells at positions 0, 1, 2 and 9,
    whatever the headers say. *)
Theorem columns_are_located_by_name (headers0 : list value)
    (jsonData : list (list value)) (formattedData : list employee)
    (managerStats : statsObject)
    (preL postL preP postP : list value) :
  processSheet headers0 jsonData = Processed formattedData managerStats ->
  headers0 = (preL ++ VStr "Leidinggevende" :: postL)%list ->
  ~ In (VStr "Leidinggevende") preL ->
  headers0 = (preP ++ VStr "Parttime (%)" :: postP)%list ->
  ~ In (VStr "Parttime (%)") preP ->
  Forall2
    (fun row e =>
       manager e = index row (Z.of_nat (List.length preL))
       /\ partTimePercentage e = index row (Z.of_nat (List.length preP))
       /\ id e = index row 0
       /\ name e = index row 1
       /\ function e = index row 2
       /\ employer e = index row 9)
    (slice1 jsonData) formattedData.
Proof.
  intros H HL HpreL HP HpreP.
  apply processSheet_inversion in H. destruct H as [-> _].
  assert (EL : leidinggevendeIndex headers0 = Z.of_nat (List.length preL)).
  { unfold leidinggevendeIndex. rewrite HL.
    apply findIndex_first_header. exact HpreL. }
  assert (EP : parttimeIndex headers0 = Z.of_nat (List.length preP)).
  { unfold parttimeIndex. rewrite HP.
    apply findIndex_first_header. exact HpreP. }
  rewrite EL, EP.
  induction (slice1 jsonData) as [| row rows IH]; simpl; constructor.
  - repeat split; reflexivity.
  - exact IH.
Qed.

(** *** The workbook that is downloaded *)

(** X15.  Nothing is downloaded exactly when there are no records.
    Otherwise the workbook has the two sheets "Employees" and "Statistics",
    in that order; the first has a header row and one row per record, the
    second a header row and one row per group, each group once; every row of
    both has five cells. *)
Theorem workbook_shape (s : session) :
  (downloadExcelWithHighlighting s = None <-> data s = [])
  /\ forall wb,
       downloadExcelWithHighlighting s = Some wb ->
       exists wsData statsData,
         wb = [("Employees", wsData); ("Statistics", statsData)]
         /\ List.length wsData = S (List.length (data s))
         /\ List.length statsData = S (List.length (stats s))
         /\ Forall (fun row => List.length row = 5%nat) wsData
         /\ Forall (fun row => List.length row = 5%nat) statsData
         /\ Permutation (tl statsData) (map stat_row (stats s)).
Proof.
  unfold downloadExcelWithHighlighting. split.
  - destruct (data s); split; (reflexivity || discriminate).
  - intros wb. destruct (data s) as [| e0 r] eqn:Ed; [discriminate |].
    intros H. injection H as <-. eexists. eexists.
    split; [reflexivity |].
    split; [cbn [List.length]; rewrite length_map; reflexivity |].
    split.
    { cbn [List.length]. rewrite length_map.
      rewrite (Permutation_length (Object_entries_perm (stats s))).
      reflexivity. }
    split.
    { constructor; [reflexivity |].
      apply Forall_forall. intros row Hin.
      change (In row (map employee_row (e0 :: r))) in Hin.
      apply in_map_iff in Hin. destruct Hin as [e [<- _]]. reflexivity. }
    split.
    { constructor; [reflexivity |].
      apply Forall_forall. intros row Hin.
      apply in_map_iff in Hin. destruct Hin as [[k g] [<- _]].
      reflexivity. }
    cbn [tl]. apply Permutation_map. apply Object_entries_perm.
Qed.

(** *** The order of display *)

Lemma insert_by_index_sorted {A : Type} (x : Z * A) (l : list (Z * A)) :
  Sorted Z.le (map fst l) -> Sorted Z.le (map fst (insert_by_index x l)).
Proof.
  induction l as [| y r IH]; simpl; intros H.
  - repeat constructor.
  - destruct (fst x <=? fst y) eqn:E.
    + simpl. constructor; [exact H |]. constructor. lia.
    + inversion H as [| ? ? Hr Hhd]; subst.
      simpl. constructor; [apply IH; exact Hr |].
      destruct r as [| z r']; simpl.
      * constructor. lia.
      * destruct (fst x <=? fst z) eqn:E'; simpl; constructor.
        -- lia.
        -- inversion Hhd; subst. assumption.
Qed.

Lemma insert_by_index_Forall {A : Type} (P : Z * A -> Prop) (x : Z * A)
    (l : list (Z * A)) :
  P x -> Forall P l -> Forall P (insert_by_index x l).
Proof.
  intros Hx. induction l as [| y r IH]; simpl; intros H.
  - constructor; [exact Hx | constructor].
  - inversion H; subst. destruct (fst x <=? fst y); auto.
Qed.

Lemma Object_entries_named (o : statsObject) :
  (forall k, In k (map fst o) -> array_index k = None) ->
  Object_entries o = o.
Proof.
  intros H.
  assert (Hi : indexed_entries o = [] /\ named_entries o = o).
  { unfold indexed_entries, named_entries.
    induction o as [| [k g] r IH]; [split; reflexivity |].
    destruct IH as [IH1 IH2];
      [intros k' Hk'; apply H; right; exact Hk' |].
    cbn [flat_map filter fst].
    rewrite (H k) by (left; reflexivity). cbn [List.app].
    rewrite IH1, IH2. split; reflexivity. }
  destruct Hi as [Hi Hn]. unfold Object_entries. rewrite Hi, Hn.
  reflexivity.
Qed.

(** X16.  The statistics table, the charts and the exported sheet list each
    group exactly once.  Groups whose key spells an array index come first,
    by ascending index; the others follow in the order in which their
    managers first occur.  When no manager's key spells an array index, the
    order is that of first occurrence. *)
Theorem groups_are_displayed_once (formattedData : list employee) :
  Permutation (Object_entries (computeAverages (aggregate formattedData)))
              (computeAverages (aggregate formattedData))
  /\ (exists sorted,
        Object_entries (computeAverages (aggregate formattedData))
        = (map snd sorted
           ++ named_entries (computeAverages (aggregate formattedData)))%list
        /\ Sorted Z.le (map fst sorted)
        /\ Forall (fun x => array_index (fst (snd x)) = Some (fst x)) sorted
        /\ Forall (fun kv => array_index (fst kv) = None)
                  (named_entries
                     (computeAverages (aggregate formattedData))))
  /\ ((forall e, In e formattedData -> counted e = true ->
                 array_index (groupKey e) = None) ->
      map fst (Object_entries (computeAverages (aggregate formattedData)))
      = first_occurrences (map groupKey (filter counted formattedData))).
Proof.
  assert (Hkeys : map fst (computeAverages (aggregate formattedData))
                  = first_occurrences
                      (map groupKey (filter counted formattedData))).
  { rewrite computeAverages_keys. unfold aggregate.
    rewrite keys_fold by constructor. simpl. apply filter_all. }
  split; [apply Object_entries_perm |]. split.
  - generalize (computeAverages (aggregate formattedData)). intros o.
    exists (fold_right insert_by_index [] (indexed_entries o)).
    split; [reflexivity |]. split; [| split].
    + induction (indexed_entries o) as [| x r IH]; simpl.
      * constructor.
      * apply insert_by_index_sorted. exact IH.
    + assert (H : Forall (fun x => array_index (fst (snd x)) = Some (fst x))
                         (indexed_entries o)).
      { unfold indexed_entries. induction o as [| [k g] r IH]; simpl.
        - constructor.
        - destruct (array_index k) eqn:E; simpl; [| exact IH].
          constructor; [exact E | exact IH]. }
      induction H as [| x r Hx Hr IH]; simpl.
      * constructor.
      * apply insert_by_index_Forall; assumption.
    + unfold named_entries. apply Forall_forall. intros kv Hkv.
      apply filter_In in Hkv. destruct Hkv as [_ Hkv].
      destruct (array_index (fst kv)); [discriminate | reflexivity].
  - intros Hnone. rewrite Object_entries_named; [exact Hkeys |].
    intros k Hk. rewrite Hkeys in Hk.
    rewrite In_first_occurrences, in_map_iff in Hk.
    destruct Hk as [e [<- He]]. apply filter_In in He.
    apply Hnone; tauto.
Qed.

(** *** The rates and the bars *)

Lemma none_counted (formattedData : list employee) :
  (forall e, In e formattedData -> counted e = false) ->
  aggregate formattedData = [].
Proof.
  intros H.
  assert (Hk : map fst (aggregate formattedData) = []).
  { unfold aggregate. rewrite keys_fold by constructor.
    assert (Hf : filter counted formattedData = []).
    { induction formattedData as [| e r IH]; [reflexivity |].
      simpl. rewrite (H e) by (left; reflexivity).
      apply IH. intros e' He'. apply H. right. exact He'. }
    rewrite Hf. reflexivity. }
  destruct (aggregate formattedData); [reflexivity | discriminate].
Qed.

(** X17.  When no record is counted (every manager cell is empty, say),
    there are no groups; the participation rate then reads 0 present and 0
    absent with both percentages "NaN", and the average of the "Total" row
    is "NaN": the divisions are by zero. *)
Theorem no_group_no_rate (formattedData : list employee) :
  (forall e, In e formattedData -> counted e = false) ->
  computeAverages (aggregate formattedData) = []
  /\ renderHorizontalBarChart (computeAverages (aggregate formattedData))
     = {| totalPresentEmployees := 0;
          totalAbsentEmployees := 0;
          presentPercentage := "NaN";
          absentPercentage := "NaN";
          presentInside := false;
          absentInside := false |}
  /\ overallAverage (computeAverages (aggregate formattedData)) = "NaN".
Proof.
  intros H. rewrite (none_counted formattedData H).
  repeat split; reflexivity.
Qed.




(** X19.  In the output statistics the height computed for the bar of the
    distribution chart is between 5 and 250 pixels and stops growing at 50
    employees, while the heights computed for the two bars of the
    present-against-absent chart are not capped: they add up to 5 pixels per
    employee of the group. *)
Theorem bar_heights (formattedData : list employee) :
  Forall
    (fun kv =>
       5 <= totalHeight (snd kv) <= 250
       /\ (totalHeight (snd kv) = 250 <-> 50 <= totalEmployees (snd kv))
       /\ presentHeight (snd kv) + absentHeight (snd kv)
          = 5 * totalEmployees (snd kv))
    (computeAverages (aggregate formattedData)).
Proof.
  apply (computeAverages_Forall
           (fun g =>
              5 <= totalHeight g <= 250
              /\ (totalHeight g = 250 <-> 50 <= totalEmployees g)
              /\ presentHeight g + absentHeight g = 5 * totalEmployees g)).
  - intros g H. exact H.
  - eapply Forall_impl;
      [| apply (aggregate_invariant
                  (fun g => 1 <= totalEmployees g
                            /\ presentEmployees g + absentEmployees g
                               = totalEmployees g))].
    + intros [k g] [H1 Hsum]. cbn [snd] in *.
      unfold totalHeight, presentHeight, absentHeight.
      destruct (Z.min_spec (totalEmployees g * 5) 250) as [[Hlt E] | [Hge E]];
        rewrite E; repeat split; lia.
    + intros e. destruct (count_counters e newGroup) as [Et [[Ep Ea] | [Ep Ea]]];
        rewrite Et, Ep, Ea; unfold newGroup; simpl; lia.
    + intros e g [H1 Hsum].
      destruct (count_counters e g) as [Et [[Ep Ea] | [Ep Ea]]];
        rewrite Et, Ep, Ea; lia.
Qed.

End Engine.


(** ** The statements on the sample sheets *)

(** C4 on the sample sheet without its manager column. *)
Lemma missing_columns_sample :
  processSheet sample_digits sample_date headers_without_manager
               sample_jsonData = MissingColumns
  /\ data (processFile sample_digits sample_date headers_without_manager
                       sample_jsonData initial_session) = []
  /\ stats (processFile sample_digits sample_date headers_without_manager
                        sample_jsonData initial_session) = [].
Proof.
  destruct (missing_columns_iff sample_digits sample_date
              headers_without_manager sample_jsonData) as [Hiff [_ Hinit]].
  assert (H : processSheet sample_digits sample_date headers_without_manager
                sample_jsonData = MissingColumns) by reflexivity.
  split; [exact H | exact (Hinit H)].
Defined.

(** C8 on the sample sheet: two data rows, two records. *)
Lemma one_record_per_row_sample :
  exists formattedData managerStats,
    processSheet sample_digits sample_date sample_headers sample_jsonData
    = Processed formattedData managerStats
    /\ List.length formattedData = 2%nat.
Proof.
  apply (one_record_per_row sample_digits sample_date sample_headers
           sample_jsonData); find_in.
Defined.

(** C10 on the sample sheet. *)
Lemma present_field_sample :
  exists formattedData managerStats,
    processSheet sample_digits sample_date sample_headers sample_jsonData
    = Processed formattedData managerStats
    /\ Forall2
         (fun row e =>
            (participation_cell sample_headers row = VUndefined ->
             present e = VStr "nee")
            /\ (participation_cell sample_headers row <> VUndefined ->
                present e = participation_cell sample_headers row))
         (slice1 sample_jsonData) formattedData.
Proof.
  eexists. eexists. split; [vm_compute; reflexivity |].
  exact (proj1 (present_field_of_records sample_digits sample_date
                  sample_headers sample_jsonData _ _ eq_refl)).
Defined.

(** C7 on the sample sheet. *)
Lemma counters_add_up_sample :
  exists formattedData managerStats,
    processSheet sample_digits sample_date sample_headers sample_jsonData
    = Processed formattedData managerStats
    /\ Forall (fun kv => counters_consistent (snd kv)) managerStats.
Proof.
  eexists. eexists. split; [vm_compute; reflexivity |].
  exact (proj2 (proj2 (proj2 (counters_add_up sample_digits sample_date _)))
           sample_headers sample_jsonData _ eq_refl).
Defined.

(** C9 on the sample sheet. *)
Lemma divisor_at_least_one_sample :
  exists formattedData managerStats,
    processSheet sample_digits sample_date sample_headers sample_jsonData
    = Processed formattedData managerStats
    /\ Forall
         (fun kv =>
            1 <= totalEmployees (snd kv)
            /\ num_is_zero (int (totalEmployees (snd kv))) = false
            /\ avgPartTimePercentage (snd kv)
               = VStr (toFixed2 sample_digits
                         (num_div
                            (ToNumber (totalPartTimePercentage (snd kv)))
                            (int (totalEmployees (snd kv))))))
         managerStats.
Proof.
  eexists. eexists. split; [vm_compute; reflexivity |].
  exact (proj1 (divisor_at_least_one sample_digits sample_date
                  sample_headers sample_jsonData _ _ eq_refl)).
Defined.

(** The scenario of the specification: two rows of Alice, one present at
    50 %, one absent at 100 %. *)
Example sample_statistics :
  exists formattedData,
    processSheet sample_digits sample_date sample_headers sample_jsonData
    = Processed formattedData
        [("Alice",
          {| totalEmployees := 2;
             presentEmployees := 1;
             absentEmployees := 1;
             totalPartTimePercentage := VNum (int 150);
             avgPartTimePercentage := VStr "75.00" |})].
Proof. eexists. vm_compute. reflexivity. Qed.

(** C5, amended, on the workbook downloaded for the sample sheet. *)
Lemma exported_workbook_is_rejected_sample :
  exists wb,
    downloadExcelWithHighlighting
      (processFile sample_digits sample_date sample_headers sample_jsonData
                   initial_session) = Some wb
    /\ reimport sample_digits sample_date wb = Some MissingColumns.
Proof.
  eexists. split; [vm_compute; reflexivity |].
  exact (proj1 (exported_workbook_is_rejected sample_digits sample_date
                  (processFile sample_digits sample_date sample_headers
                               sample_jsonData initial_session)
                  _ eq_refl)).
Defined.

(** C5, as stated, fails: the workbook downloaded for the sample sheet, which
    is accepted, is rejected when uploaded again, so no records come back. *)
Lemma roundtrip_fails :
  ~ roundtrip_holds sample_digits sample_date sample_headers sample_jsonData.
Proof.
  intros H.
  edestruct H as [d' [m' [Hre _]]];
    [vm_compute; reflexivity | vm_compute; reflexivity |].
  vm_compute in Hre. discriminate Hre.
Qed.


(** ** Further statements on the sample sheets *)

(** X2 on the sample records: the group of Alice counts two records, one
    present and one absent. *)
Lemma group_counts_sample :
  exists g,
    lookup "Alice"
           (computeAverages sample_digits
              (aggregate sample_digits sample_date sample_records))
    = Some g
    /\ totalEmployees g = 2
    /\ presentEmployees g = 1
    /\ absentEmployees g = 1.
Proof.
  eexists. split; [vm_compute; reflexivity |].
  exact (proj2 (group_counts sample_digits sample_date sample_records
                  "Alice" _ eq_refl)).
Defined.

(** X7 on the sample records. *)
Lemma badge_matches_absent_total_sample :
  nonParticipatingCount sample_records
  = reduce_sum absentEmployees
      (computeAverages sample_digits
         (aggregate sample_digits sample_date sample_records)).
Proof.
  apply (badge_matches_absent_total sample_digits sample_date
           sample_records).
  - intros e [<- | [<- | []]]; reflexivity.
  - intros e [<- | [<- | []]];
      (split; [discriminate
              | intros s H; injection H as <-; reflexivity]).
Defined.

(** X8 on the records with the part-time cell "abc". *)
Lemma unparsable_cell_poisons_group_sample :
  exists g,
    lookup "Alice"
           (computeAverages sample_digits
              (aggregate sample_digits sample_date unparsable_records))
    = Some g
    /\ totalPartTimePercentage g = VNum NaN
    /\ avgPartTimePercentage g = VStr "NaN".
Proof.
  apply (unparsable_cell_poisons_group sample_digits sample_date
           unparsable_records "Alice"
           (formatRow 10 11 12
              (sample_row "Carla" (VStr "abc") (VStr "nee")))
           "abc").
  - right. left. reflexivity.
  - reflexivity.
  - reflexivity.
  - reflexivity.
  - discriminate.
  - reflexivity.
  - intros e' [<- | [<- | []]] _ ms; discriminate.
Defined.


(** X10 on a run: a file is chosen, its read ends with the sample sheet, and
    the tabs open on the structure of that sheet. *)
Lemma screen_is_consistent_sample :
  exists a1 a2,
    handle sample_digits sample_date (Change (Some sample_file)) initial_app
    = Some a1
    /\ handle sample_digits sample_date (ReadEnds (Decoded sample_decoded))
              a1
       = Some a2
    /\ view_of a2 = Tabs FileStructureTab
    /\ consistent sample_digits sample_date a2.
Proof.
  eexists. eexists.
  split; [reflexivity |]. split; [reflexivity |]. split; [reflexivity |].
  apply screen_is_consistent.
  apply (reachable_step sample_digits sample_date _ _
           (ReadEnds (Decoded sample_decoded))
           (reachable_step sample_digits sample_date initial_app _
              (Change (Some sample_file))
              (reachable_initial sample_digits sample_date) eq_refl)).
  reflexivity.
Defined.

(** X13 on two columns headed "Naam": the type shown is that of the second. *)
Lemma last_column_names_the_type_sample :
  lookupType "Naam"
    (columnTypes_of sample_digits sample_date [VStr "Naam"; VStr "Naam"]
       [[VStr "Naam"; VStr "Naam"]; [VStr "Bram"; VNum (int 3)]])
  = Some "number"
  /\ typeCell sample_digits sample_date
       (columnTypes_of sample_digits sample_date [VStr "Naam"; VStr "Naam"]
          [[VStr "Naam"; VStr "Naam"]; [VStr "Bram"; VNum (int 3)]])
       (VStr "Naam")
     = Some "number".
Proof.
  apply (last_column_names_the_type sample_digits sample_date
           [VStr "Naam"] [] (VStr "Naam")
           [[VStr "Naam"; VStr "Naam"]; [VStr "Bram"; VNum (int 3)]]).
  - reflexivity.
  - discriminate.
  - intros h' [].
Defined.

(** X14 on the sample sheet: the manager is read at position 10 and the
    part-time percentage at position 11. *)
Lemma columns_are_located_by_name_sample :
  exists formattedData managerStats,
    processSheet sample_digits sample_date sample_headers sample_jsonData
    = Processed formattedData managerStats
    /\ Forall2
         (fun row e =>
            manager e = index row 10
            /\ partTimePercentage e = index row 11
            /\ id e = index row 0
            /\ name e = index row 1
            /\ function e = index row 2
            /\ employer e = index row 9)
         (slice1 sample_jsonData) formattedData.
Proof.
  eexists. eexists. split; [vm_compute; reflexivity |].
  eapply (columns_are_located_by_name sample_digits sample_date
           sample_headers sample_jsonData _ _
           (firstn 10 sample_headers) (skipn 11 sample_headers)
           (firstn 11 sample_headers) (skipn 12 sample_headers)).
  - reflexivity.
  - reflexivity.
  - not_among.
  - reflexivity.
  - not_among.
Defined.

(** X17 on a record without manager. *)
Lemma no_group_no_rate_sample :
  computeAverages sample_digits
    (aggregate sample_digits sample_date orphan_records) = []
  /\ presentPercentage
       (renderHorizontalBarChart sample_digits
          (computeAverages sample_digits
             (aggregate sample_digits sample_date orphan_records)))
     = "NaN".
Proof.
  destruct (no_group_no_rate sample_digits sample_date orphan_records)
    as [Hnone [Hrate _]].
  - intros e [<- | []]. reflexivity.
  - split; [exact Hnone |]. rewrite Hrate. reflexivity.
Defined.


End App.
